(** * OpenTherm master library: frame codec and session state machine

    Shallow embedding of [src/OpenTherm.cpp] (namespace [OT], class
    [OpenTherm]) and the properties of its frame codec, of the edge-driven
    receive decoder ([handleInterrupt]) and of the polling controller
    ([process]).

    Conventions of the embedding:
    - [unsigned long] is the 32-bit type of the targets named in the source
      header (Arduino, ESP8266): a [Z] in [0, 2^32), every operation that can
      leave that range is wrapped explicitly with [u32].
    - [unsigned int] is at most 32 bits wide (16 on AVR, 32 on ESP8266); a
      value of that type is a [Z] in [0, 2^32), converted to [unsigned long]
      without change.
    - [byte] is an 8-bit unsigned value, wrapped with [u8].
    - [micros()] and [digitalRead(inPin)] are inputs of the functions that
      call them; [digitalWrite(outPin, _)] and the calls of
      [processResponseCallback] are recorded in the object.
    - [noInterrupts()] / [interrupts()] delimit critical sections; here an
      invocation of [handleInterrupt], [process] or [sendRequestAync] is one
      atomic step, runs are interleavings of such steps. *)

From Stdlib Require Import ZArith Bool List Lia QArith.
From Stdlib Require Import Qround.
From Equations Require Import Equations.
Import ListNotations.

Local Open Scope Z_scope.

(** ** Machine integers *)

Definition u32 (x : Z) : Z := x mod 2 ^ 32.
Definition u8 (x : Z) : Z := x mod 2 ^ 8.

(** [a - b] on [unsigned long]. *)
Definition sub32 (a b : Z) : Z := u32 (a - b).

(** [x << n] on [unsigned long]. *)
Definition shl32 (x n : Z) : Z := u32 (Z.shiftl x n).

(** Conversion of an integer to [bool]: non-zero is [true]. *)
Definition to_bool (x : Z) : bool := negb (x =? 0).

(** ** Enumerations of [OpenTherm.h] *)

(** Modelled from the spec: the header [OpenTherm.h] declaring
    [OpenThermMessageType] is not part of the sources. The eight kinds are
    the 3-bit codes in the order the spec lists them (the order of
    [messageTypeToString] as well); [buildRequest] fixes [READ_DATA] at 0 and
    [WRITE_DATA] at 1. *)
Inductive OpenThermMessageType : Type :=
| READ_DATA | WRITE_DATA | INVALID_DATA | RESERVED
| READ_ACK | WRITE_ACK | DATA_INVALID | UNKNOWN_DATA_ID.

Definition msg_type_code (t : OpenThermMessageType) : Z :=
  match t with
  | READ_DATA => 0 | WRITE_DATA => 1 | INVALID_DATA => 2 | RESERVED => 3
  | READ_ACK => 4 | WRITE_ACK => 5 | DATA_INVALID => 6 | UNKNOWN_DATA_ID => 7
  end.

Definition msg_type_of_code (c : Z) : OpenThermMessageType :=
  match c with
  | 0 => READ_DATA | 1 => WRITE_DATA | 2 => INVALID_DATA | 3 => RESERVED
  | 4 => READ_ACK | 5 => WRITE_ACK | 6 => DATA_INVALID | _ => UNKNOWN_DATA_ID
  end.

Definition msg_type_eqb (a b : OpenThermMessageType) : bool :=
  msg_type_code a =? msg_type_code b.

(** The states of the session, as [OpenTherm.cpp] names them. *)
Inductive OpenThermStatus : Type :=
| NOT_INITIALIZED | READY | DELAY | REQUEST_SENDING | RESPONSE_WAITING
| RESPONSE_START_BIT | RESPONSE_RECEIVING | RESPONSE_READY | RESPONSE_INVALID.

Definition status_eqb (a b : OpenThermStatus) : bool :=
  match a, b with
  | NOT_INITIALIZED, NOT_INITIALIZED | READY, READY | DELAY, DELAY
  | REQUEST_SENDING, REQUEST_SENDING | RESPONSE_WAITING, RESPONSE_WAITING
  | RESPONSE_START_BIT, RESPONSE_START_BIT
  | RESPONSE_RECEIVING, RESPONSE_RECEIVING
  | RESPONSE_READY, RESPONSE_READY | RESPONSE_INVALID, RESPONSE_INVALID => true
  | _, _ => false
  end.

Inductive OpenThermResponseStatus : Type :=
| NONE | SUCCESS | INVALID | TIMEOUT.

(** Line levels of the Arduino core. *)
Definition LOW : Z := 0.
Definition HIGH : Z := 1.

(** ** Frame codec *)

(** Number of binary digits of a non-negative value: the number of
    iterations the loop of [parity] makes. *)
Definition bit_length (x : Z) : nat :=
  match x with
  | Zpos q => Pos.size_nat q
  | _ => O
  end.

(** The loop of [OpenTherm::parity]:
    [while (frame > 0) { if (frame & 1) p++; frame = frame >> 1; }]
    with [p] a [byte]. *)
Equations? parity_loop (frame : Z) (p : Z) : Z by wf (bit_length frame) lt :=
  parity_loop frame p with Z_gt_dec frame 0 => {
    | left _ =>
        parity_loop (Z.shiftr frame 1)
                    (if to_bool (Z.land frame 1) then u8 (p + 1) else p);
    | right _ => p }.
Proof.
  destruct frame as [| q | q]; try lia.
  destruct q; simpl; lia.
Qed.

(** [bool OpenTherm::parity(unsigned long frame)]: [return (p & 1);] *)
Definition parity (frame : Z) : bool :=
  to_bool (Z.land (parity_loop frame 0) 1).

(** [OpenThermMessageID] is an enumeration of [OpenTherm.h]; an identifier is
    handled through its integer value. *)
Definition OpenThermMessageID : Type := Z.

(** [unsigned long OpenTherm::buildRequest(type, id, data)] *)
Definition buildRequest (type : OpenThermMessageType) (id : OpenThermMessageID)
           (data : Z) : Z :=
  let request := u32 data in
  let request :=
    if msg_type_eqb type WRITE_DATA then Z.lor request (shl32 1 28)
    else request in
  let request := Z.lor request (shl32 (u32 id) 16) in
  if parity request then Z.lor request (shl32 1 31) else request.

(** [bool OpenTherm::isValidResponse(unsigned long response)] *)
Definition isValidResponse (response : Z) : bool :=
  if parity response then false
  else
    let msgType := u8 (Z.shiftr (shl32 response 1) 29) in
    (msgType =? msg_type_code READ_ACK) || (msgType =? msg_type_code WRITE_ACK).

(** [OpenThermMessageType OpenTherm::getMessageType(unsigned long message)] *)
Definition getMessageType (message : Z) : OpenThermMessageType :=
  msg_type_of_code (Z.land (Z.shiftr message 28) 7).

Section BoilerStatus.

(** The value of the enumerator [OpenThermMessageID::Status], declared in
    [OpenTherm.h]. *)
Variable Status : OpenThermMessageID.

(** [unsigned long OpenTherm::buildSetBoilerStatusRequest(...)]; [data] is at
    most [31 << 8], below the range of a 16-bit [unsigned int]. *)
Definition buildSetBoilerStatusRequest
           (enableCentralHeating enableHotWater enableCooling
            enableOutsideTemperatureCompensation enableCentralHeating2 : bool)
  : Z :=
  let data :=
    Z.lor (Z.lor (Z.lor (Z.lor (Z.b2z enableCentralHeating)
                               (Z.shiftl (Z.b2z enableHotWater) 1))
                        (Z.shiftl (Z.b2z enableCooling) 2))
                 (Z.shiftl (Z.b2z enableOutsideTemperatureCompensation) 3))
          (Z.shiftl (Z.b2z enableCentralHeating2) 4) in
  let data := Z.shiftl data 8 in
  buildRequest READ_DATA Status data.

End BoilerStatus.

(** Parsing responses. *)
Definition isFault (response : Z) : bool := to_bool (Z.land response 1).
Definition isCentralHeatingEnabled (response : Z) : bool :=
  to_bool (Z.land response 2).
Definition isHotWaterEnabled (response : Z) : bool :=
  to_bool (Z.land response 4).
Definition isFlameOn (response : Z) : bool := to_bool (Z.land response 8).
Definition isCoolingEnabled (response : Z) : bool :=
  to_bool (Z.land response 16).
Definition isDiagnostic (response : Z) : bool := to_bool (Z.land response 64).

(** [uint16_t OpenTherm::getUInt(const unsigned long response)] *)
Definition getUInt (response : Z) : Z := Z.land response 65535.

(** [float OpenTherm::getFloat(const unsigned long response)]. Both branches
    divide an integer of at most 16 bits by 256, which binary floating point
    does exactly: the result is given as a rational. *)
Definition getFloat (response : Z) : Q :=
  let u88 := getUInt response in
  if to_bool (Z.land u88 32768)
  then (- (65536 - u88) # 256)%Q
  else (u88 # 256)%Q.

(** [float OpenTherm::getTemperature(unsigned long response)] *)
Definition getTemperature (response : Z) : Q :=
  if isValidResponse response then getFloat response else 0%Q.

(** ** Session state *)

(** The data members of class [OpenTherm] that the protocol engine uses.
    [processResponseCallback] records whether the pointer is non-NULL;
    [callbackCalls] lists the calls [processResponseCallback(response,
    responseStatus)] made so far, oldest first; [outPinWrites] lists the
    levels written with [digitalWrite(outPin, _)], oldest first. *)
Record OpenTherm : Type := mkOpenTherm {
  status : OpenThermStatus;
  response : Z;
  responseStatus : OpenThermResponseStatus;
  responseTimestamp : Z;
  responseBitIndex : Z;
  processResponseCallback : bool;
  callbackCalls : list (Z * OpenThermResponseStatus);
  outPinWrites : list Z
}.

Definition set_status (v : OpenThermStatus) (o : OpenTherm) : OpenTherm :=
  mkOpenTherm v (response o) (responseStatus o) (responseTimestamp o)
              (responseBitIndex o) (processResponseCallback o)
              (callbackCalls o) (outPinWrites o).

Definition set_response (v : Z) (o : OpenTherm) : OpenTherm :=
  mkOpenTherm (status o) v (responseStatus o) (responseTimestamp o)
              (responseBitIndex o) (processResponseCallback o)
              (callbackCalls o) (outPinWrites o).

Definition set_responseStatus (v : OpenThermResponseStatus) (o : OpenTherm)
  : OpenTherm :=
  mkOpenTherm (status o) (response o) v (responseTimestamp o)
              (responseBitIndex o) (processResponseCallback o)
              (callbackCalls o) (outPinWrites o).

Definition set_responseTimestamp (v : Z) (o : OpenTherm) : OpenTherm :=
  mkOpenTherm (status o) (response o) (responseStatus o) v
              (responseBitIndex o) (processResponseCallback o)
              (callbackCalls o) (outPinWrites o).

Definition set_responseBitIndex (v : Z) (o : OpenTherm) : OpenTherm :=
  mkOpenTherm (status o) (response o) (responseStatus o) (responseTimestamp o)
              v (processResponseCallback o)
              (callbackCalls o) (outPinWrites o).

Definition set_processResponseCallback (v : bool) (o : OpenTherm) : OpenTherm :=
  mkOpenTherm (status o) (response o) (responseStatus o) (responseTimestamp o)
              (responseBitIndex o) v (callbackCalls o) (outPinWrites o).

(** [digitalWrite(outPin, level)] *)
Definition digitalWrite (level : Z) (o : OpenTherm) : OpenTherm :=
  mkOpenTherm (status o) (response o) (responseStatus o) (responseTimestamp o)
              (responseBitIndex o) (processResponseCallback o)
              (callbackCalls o) (outPinWrites o ++ [level]).

(** [if (processResponseCallback != NULL)
       processResponseCallback(response, responseStatus);] *)
Definition notify (o : OpenTherm) : OpenTherm :=
  if processResponseCallback o then
    mkOpenTherm (status o) (response o) (responseStatus o)
                (responseTimestamp o) (responseBitIndex o)
                (processResponseCallback o)
                (callbackCalls o ++ [(response o, responseStatus o)])
                (outPinWrites o)
  else o.

(** [OpenTherm::OpenTherm(int inPin, int outPin)]; the constructor leaves
    [responseBitIndex] uninitialised, [bitIndex0] is whatever it holds. *)
Definition OpenTherm_new (bitIndex0 : Z) : OpenTherm :=
  mkOpenTherm NOT_INITIALIZED 0 NONE 0 bitIndex0 false [] [].

Definition isReady (o : OpenTherm) : bool := status_eqb (status o) READY.

Definition setActiveState (o : OpenTherm) : OpenTherm := digitalWrite LOW o.
Definition setIdleState (o : OpenTherm) : OpenTherm := digitalWrite HIGH o.

(** [activateBoiler]: [setIdleState(); delay(1000);] *)
Definition activateBoiler (o : OpenTherm) : OpenTherm := setIdleState o.

(** [void OpenTherm::begin(handleInterruptCallback, processResponseCallback)];
    [callback] tells whether [processResponseCallback] is non-NULL. *)
Definition begin (callback : bool) (o : OpenTherm) : OpenTherm :=
  let o := activateBoiler o in
  let o := set_status READY o in
  set_processResponseCallback callback o.

(** [void OpenTherm::sendBit(bool high)] *)
Definition sendBit (high : bool) (o : OpenTherm) : OpenTherm :=
  let o := if high then setActiveState o else setIdleState o in
  if high then setIdleState o else setActiveState o.

(** [bitRead(value, bit)] of the Arduino core. *)
Definition bitRead (value bit : Z) : Z := Z.land (Z.shiftr value bit) 1.

(** [for (int i = 31; i >= 0; i--) sendBit(bitRead(request, i));] *)
Definition sendBits (request : Z) (o : OpenTherm) : OpenTherm :=
  fold_left (fun o i => sendBit (to_bool (bitRead request (Z.of_nat i))) o)
            (rev (seq 0 32)) o.

(** [bool OpenTherm::sendRequestAync(unsigned long request)]; [now] is the
    value [micros()] returns once the frame has been sent. *)
Definition sendRequestAync (request : Z) (now : Z) (o : OpenTherm)
  : bool * OpenTherm :=
  let ready := isReady o in
  if negb ready then (false, o)
  else
    let o := set_status REQUEST_SENDING o in
    let o := set_response 0 o in
    let o := set_responseStatus NONE o in
    let o := sendBit (to_bool HIGH) o in
    let o := sendBits request o in
    let o := sendBit (to_bool HIGH) o in
    let o := setIdleState o in
    let o := set_status RESPONSE_WAITING o in
    let o := set_responseTimestamp now o in
    (true, o).

(** [void OpenTherm::handleInterrupt()]; [newTs] is the value of [micros()]
    and [level] the value [readState()] returns in this invocation. *)
Definition handleInterrupt (newTs : Z) (level : Z) (o : OpenTherm) : OpenTherm :=
  if isReady o then o
  else if status_eqb (status o) RESPONSE_WAITING then
    if level =? HIGH then
      set_responseTimestamp newTs (set_status RESPONSE_START_BIT o)
    else
      set_responseTimestamp newTs (set_status RESPONSE_INVALID o)
  else if status_eqb (status o) RESPONSE_START_BIT then
    if (sub32 newTs (responseTimestamp o) <? 750) && (level =? LOW) then
      set_responseBitIndex 0
        (set_responseTimestamp newTs (set_status RESPONSE_RECEIVING o))
    else
      set_responseTimestamp newTs (set_status RESPONSE_INVALID o)
  else if status_eqb (status o) RESPONSE_RECEIVING then
    if sub32 newTs (responseTimestamp o) >? 750 then
      if responseBitIndex o <? 32 then
        let o := set_response
                   (Z.lor (shl32 (response o) 1) (Z.b2z (level =? 0))) o in
        let o := set_responseTimestamp newTs o in
        set_responseBitIndex (responseBitIndex o + 1) o
      else
        set_responseTimestamp newTs (set_status RESPONSE_READY o)
    else o
  else o.

(** [void OpenTherm::process()]; [newTs] is the value of [micros()]. *)
Definition process (newTs : Z) (o : OpenTherm) : OpenTherm :=
  let st := status o in
  let ts := responseTimestamp o in
  if status_eqb st READY then o
  else if negb (status_eqb st NOT_INITIALIZED) && (sub32 newTs ts >? 800000) then
    let o := set_responseStatus TIMEOUT o in
    let o := notify o in
    set_status READY o
  else if status_eqb st RESPONSE_INVALID then
    let o := set_responseStatus INVALID o in
    let o := notify o in
    set_status DELAY o
  else if status_eqb st RESPONSE_READY then
    let o := set_responseStatus
               (if isValidResponse (response o) then SUCCESS else INVALID) o in
    let o := notify o in
    set_status DELAY o
  else if status_eqb st DELAY then
    if sub32 newTs ts >? 100000 then set_status READY o else o
  else o.

(** What happens between two tests of [isReady()] in the loop of
    [sendRequest]: [process()] reads the clock, then the edges that arrive
    until the next test, each with its clock value and line level. *)
Record poll : Type := mkPoll {
  poll_micros : Z;
  poll_edges : list (Z * Z)
}.

Definition run_edges (edges : list (Z * Z)) (o : OpenTherm) : OpenTherm :=
  fold_left (fun o e => handleInterrupt (fst e) (snd e) o) edges o.

(** [while (!isReady()) { process(); yield(); }] over the polls that the
    environment provides; [None] when they are used up before the session
    is ready again. *)
Fixpoint wait_ready (polls : list poll) (o : OpenTherm) : option OpenTherm :=
  if isReady o then Some o
  else
    match polls with
    | [] => None
    | p :: polls' =>
        wait_ready polls' (run_edges (poll_edges p) (process (poll_micros p) o))
    end.

(** [unsigned long OpenTherm::sendRequest(unsigned long request)] *)
Definition sendRequest (request : Z) (now : Z) (polls : list poll)
           (o : OpenTherm) : option (Z * OpenTherm) :=
  let (sent, o) := sendRequestAync request now o in
  if negb sent then Some (0, o)
  else
    match wait_ready polls o with
    | Some o => Some (response o, o)
    | None => None
    end.

(** The entry points that act on a started engine, as steps of a run. *)
Inductive call : Type :=
| CallSend (request : Z) (now : Z)
| CallEdge (newTs : Z) (level : Z)
| CallProcess (newTs : Z).

Definition step (c : call) (o : OpenTherm) : OpenTherm :=
  match c with
  | CallSend request now => snd (sendRequestAync request now o)
  | CallEdge newTs level => handleInterrupt newTs level o
  | CallProcess newTs => process newTs o
  end.

Definition run (cs : list call) (o : OpenTherm) : OpenTherm :=
  fold_left (fun o c => step c o) cs o.

(** ** Reference notions for the statements *)

(** Number of set bits among bits [0 .. n-1] of [f]. *)
Fixpoint popcount_bits (n : nat) (f : Z) : Z :=
  match n with
  | O => 0
  | S n' => Z.b2z (Z.testbit f (Z.of_nat n')) + popcount_bits n' f
  end.

(** Population count of a 32-bit frame. *)
Definition popcount32 (f : Z) : Z := popcount_bits 32 f.

(** The 3-bit message-kind field, bits 28-30 of a frame. *)
Definition kind_field (f : Z) : Z := (f / 2 ^ 28) mod 2 ^ 3.

(** The data-point identifier field, bits 16-23 of a frame. *)
Definition id_field (f : Z) : Z := (f / 2 ^ 16) mod 2 ^ 8.

(** The spare field, bits 24-27 of a frame. *)
Definition spare_field (f : Z) : Z := (f / 2 ^ 24) mod 2 ^ 4.

(** The payload field, bits 0-15 of a frame, and its two bytes. *)
Definition payload_field (f : Z) : Z := f mod 2 ^ 16.
Definition low_byte (payload : Z) : Z := payload mod 2 ^ 8.
Definition high_byte (payload : Z) : Z := (payload / 2 ^ 8) mod 2 ^ 8.

(** A frame is a 32-bit value. *)
Definition is_frame (f : Z) : Prop := 0 <= f < 2 ^ 32.

(** The request before the parity bit is set, for a 16-bit payload and an
    8-bit identifier: the three fields side by side. *)
Definition request_body (type : OpenThermMessageType) (id data : Z) : Z :=
  data + id * 2 ^ 16 + (if msg_type_eqb type WRITE_DATA then 2 ^ 28 else 0).

(** The state [process] leaves when it reports a timeout. *)
Definition timed_out (o : OpenTherm) : OpenTherm :=
  mkOpenTherm READY (response o) TIMEOUT (responseTimestamp o)
              (responseBitIndex o) (processResponseCallback o)
              (if processResponseCallback o
               then callbackCalls o ++ [(response o, TIMEOUT)]
               else callbackCalls o)
              (outPinWrites o).


(** ** A slave on the line *)

(** The bits of a frame in transmission order, most significant first, as
    [sendRequestAync] sends them. *)
Definition frame_bits (frame : Z) : list Z :=
  map (fun i => bitRead frame (Z.of_nat i)) (rev (seq 0 32)).

(** The level of the input line in each half bit period (500 microseconds)
    of a frame with its start and stop bits, in the encoding of [sendBit]:
    the first half of a bit has the level of the bit, the second half the
    opposite one. *)
Definition half_bit_levels (frame : Z) : list Z :=
  flat_map (fun b => [b; 1 - b]) (1 :: frame_bits frame ++ [1]).

(** The invocations of [handleInterrupt] that a line produces: one at every
    change of level, [t] being the time of the first half bit and [prev] the
    level before it. *)
Fixpoint line_edges (t : Z) (prev : Z) (levels : list Z) : list call :=
  match levels with
  | [] => []
  | l :: levels' =>
      (if l =? prev then [] else [CallEdge t l])
        ++ line_edges (t + 500) l levels'
  end.

(** The edges of a slave that answers with [frame] from time [t0] on, on a
    line that is [LOW] when idle. *)
Definition slave_response (t0 : Z) (frame : Z) : list call :=
  line_edges t0 LOW (half_bit_levels frame).

(** One exchange on a started engine with a completion callback: a request
    sent at time 0, the slave's answer [frame] from 20,000 microseconds on,
    then the given calls of [process]. *)
Definition exchange (request frame : Z) (polls : list Z) : OpenTherm :=
  run (CallSend request 0 :: slave_response 20000 frame
         ++ map CallProcess polls)
      (begin true (OpenTherm_new 0)).


(** ** Temperature requests and the blocking wrappers *)

(** Truncation toward zero, the conversion of a floating-point value to an
    integer type. *)
Definition Qtruncate (x : Q) : Z := Z.quot (Qnum x) (Zpos (Qden x)).

Definition Qlt_bool (a b : Q) : bool := negb (Qle_bool b a).

(** [unsigned int OpenTherm::temperatureToData(float temperature)]. A finite
    [float] is a rational; the comparisons are exact and so is the product
    of a value in 0..100 by 256, so the function is given on rationals. *)
Definition temperatureToData (temperature : Q) : Z :=
  let temperature := if Qlt_bool temperature 0 then 0%Q else temperature in
  let temperature :=
    if Qlt_bool 100 temperature then 100%Q else temperature in
  Qtruncate (temperature * 256).


Section BasicRequests.

(** The values of the enumerators [OpenThermMessageID::Status], [TSet] and
    [Tboiler], declared in [OpenTherm.h]. *)
Variables Status TSet Tboiler : OpenThermMessageID.

(** [unsigned long OpenTherm::buildSetBoilerTemperatureRequest(float)] *)
Definition buildSetBoilerTemperatureRequest (temperature : Q) : Z :=
  let data := temperatureToData temperature in
  buildRequest WRITE_DATA TSet data.

(** [unsigned long OpenTherm::buildGetBoilerTemperatureRequest()] *)
Definition buildGetBoilerTemperatureRequest : Z :=
  buildRequest READ_DATA Tboiler 0.

(** [unsigned long OpenTherm::setBoilerStatus(...)] *)
Definition setBoilerStatus
           (enableCentralHeating enableHotWater enableCooling
            enableOutsideTemperatureCompensation enableCentralHeating2 : bool)
           (now : Z) (polls : list poll) (o : OpenTherm)
  : option (Z * OpenTherm) :=
  sendRequest
    (buildSetBoilerStatusRequest Status enableCentralHeating enableHotWater
       enableCooling enableOutsideTemperatureCompensation
       enableCentralHeating2)
    now polls o.

(** [bool OpenTherm::setBoilerTemperature(float temperature)] *)
Definition setBoilerTemperature (temperature : Q) (now : Z)
           (polls : list poll) (o : OpenTherm) : option (bool * OpenTherm) :=
  match sendRequest (buildSetBoilerTemperatureRequest temperature)
                    now polls o with
  | Some (response, o) => Some (isValidResponse response, o)
  | None => None
  end.

(** [float OpenTherm::getBoilerTemperature()] *)
Definition getBoilerTemperature (now : Z) (polls : list poll) (o : OpenTherm)
  : option (Q * OpenTherm) :=
  match sendRequest buildGetBoilerTemperatureRequest now polls o with
  | Some (response, o) => Some (getTemperature response, o)
  | None => None
  end.

End BasicRequests.

(** ** Notions for the session properties *)

(** The value of a list of bits, most significant first, shifted into
    [acc]. *)
Definition bits_value (acc : Z) (bits : list Z) : Z :=
  fold_left (fun v b => 2 * v + b) bits acc.

(** The signed reading of a 16-bit payload. *)
Definition signed16 (u : Z) : Z := if u <? 2 ^ 15 then u else u - 2 ^ 16.

(** What a recorded call of the completion callback may carry: an outcome
    other than [NONE], and [SUCCESS] only with a frame that
    [isValidResponse] accepts. *)
Definition sound_call (c : Z * OpenThermResponseStatus) : Prop :=
  snd c <> NONE /\ (snd c = SUCCESS -> isValidResponse (fst c) = true).

(** While bits are received at most 32 are counted, and a frame is ready
    only with 32 of them. *)
Definition bit_count_ok (o : OpenTherm) : Prop :=
  (status o = RESPONSE_RECEIVING -> 0 <= responseBitIndex o <= 32)
  /\ (status o = RESPONSE_READY -> responseBitIndex o = 32).

(** A poll during which no edge arrives. *)
Definition silent (p : poll) : Prop := poll_edges p = [].

(** The value [temperatureToData] scales: the input clamped to 0..100. *)
Definition clamped (t : Q) : Q :=
  if Qlt_bool t 0 then 0%Q else if Qlt_bool 100 t then 100%Q else t.



(** The outcome [process] reports for a complete frame. *)
Definition frame_outcome (f : Z) : OpenThermResponseStatus :=
  if isValidResponse f then SUCCESS else INVALID.

(** The calls recorded after one more notification. *)
Definition notified (o : OpenTherm) (r : Z) (s : OpenThermResponseStatus)
  : list (Z * OpenThermResponseStatus) :=
  if processResponseCallback o then callbackCalls o ++ [(r, s)]
  else callbackCalls o.

(** ** The parity loop computes the population count modulo 2 *)

Lemma parity_loop_step (frame p : Z) :
  parity_loop frame p =
  if frame >? 0
  then parity_loop (Z.shiftr frame 1)
                   (if to_bool (Z.land frame 1) then u8 (p + 1) else p)
  else p.
Proof.
  rewrite parity_loop_equation_1.
  destruct (Z_gt_dec frame 0) as [Hpos | Hnpos]; simpl;
    destruct (Z.gtb_spec frame 0); try lia; reflexivity.
Qed.

Lemma to_bool_land_1 (x : Z) : to_bool (Z.land x 1) = Z.odd x.
Proof.
  unfold to_bool.
  change 1 with (Z.ones 1). rewrite Z.land_ones by lia.
  change (2 ^ 1) with 2. rewrite <- Z.bit0_mod, Z.bit0_odd.
  destruct (Z.odd x); reflexivity.
Qed.

Lemma odd_u8 (x : Z) : Z.odd (u8 x) = Z.odd x.
Proof.
  unfold u8. rewrite <- !Z.bit0_odd.
  change (2 ^ 8) with (2 ^ 8). rewrite Z.mod_pow2_bits_low by lia.
  reflexivity.
Qed.

Lemma popcount_bits_0 (n : nat) : popcount_bits n 0 = 0.
Proof.
  induction n as [| n IH]; simpl; [reflexivity |].
  rewrite Z.bits_0, IH. reflexivity.
Qed.

Lemma popcount_bits_shift (n : nat) (f : Z) :
  popcount_bits (S n) f =
  Z.b2z (Z.testbit f 0) + popcount_bits n (Z.shiftr f 1).
Proof.
  induction n as [| n IH].
  - simpl. reflexivity.
  - change (popcount_bits (S (S n)) f)
      with (Z.b2z (Z.testbit f (Z.of_nat (S n))) + popcount_bits (S n) f).
    rewrite IH.
    change (popcount_bits (S n) (Z.shiftr f 1))
      with (Z.b2z (Z.testbit (Z.shiftr f 1) (Z.of_nat n))
            + popcount_bits n (Z.shiftr f 1)).
    rewrite Z.shiftr_spec by lia.
    replace (Z.of_nat n + 1) with (Z.of_nat (S n)) by lia.
    lia.
Qed.

Lemma popcount_bits_ext (n : nat) (a b : Z) :
  (forall i, 0 <= i < Z.of_nat n -> Z.testbit a i = Z.testbit b i) ->
  popcount_bits n a = popcount_bits n b.
Proof.
  induction n as [| n IH]; intros Hbits; simpl; [reflexivity |].
  rewrite (Hbits (Z.of_nat n)) by lia.
  rewrite IH; [reflexivity |].
  intros i Hi. apply Hbits. lia.
Qed.

Lemma parity_loop_odd (n : nat) :
  forall f p, 0 <= f < 2 ^ Z.of_nat n ->
    Z.odd (parity_loop f p) = xorb (Z.odd p) (Z.odd (popcount_bits n f)).
Proof.
  induction n as [| n IH]; intros f p Hf.
  - assert (f = 0) by (simpl in Hf; lia). subst f.
    rewrite parity_loop_step. simpl. rewrite xorb_false_r. reflexivity.
  - rewrite parity_loop_step.
    destruct (Z.gtb_spec f 0) as [Hpos | Hzero].
    + rewrite IH.
      * rewrite popcount_bits_shift, Z.odd_add, to_bool_land_1, Z.bit0_odd.
        destruct (Z.odd f) eqn:Hodd; simpl.
        -- rewrite odd_u8, Z.odd_add. simpl.
           destruct (Z.odd p), (Z.odd (popcount_bits n (Z.shiftr f 1)));
             reflexivity.
        -- reflexivity.
      * rewrite Z.shiftr_div_pow2 by lia. change (2 ^ 1) with 2.
        rewrite Nat2Z.inj_succ, Z.pow_succ_r in Hf by lia.
        split; [apply Z.div_pos; lia |].
        apply Z.div_lt_upper_bound; lia.
    + assert (f = 0) by lia. subst f.
      rewrite popcount_bits_0. simpl. rewrite xorb_false_r. reflexivity.
Qed.

(** [parity] is the oddness of the population count of a frame. *)
Lemma parity_popcount (f : Z) :
  is_frame f -> parity f = Z.odd (popcount32 f).
Proof.
  intros Hf. unfold parity, popcount32.
  rewrite to_bool_land_1.
  rewrite (parity_loop_odd 32 f 0 Hf). reflexivity.
Qed.

(** ** Validity of a response *)

Lemma msg_type_bits (f : Z) :
  is_frame f -> u8 (Z.shiftr (shl32 f 1) 29) = kind_field f.
Proof.
  unfold is_frame, u8, shl32, u32, kind_field. intros Hf.
  rewrite Z.shiftr_div_pow2, Z.shiftl_mul_pow2 by lia.
  change (2 ^ 32) with 4294967296 in *. change (2 ^ 29) with 536870912.
  change (2 ^ 28) with 268435456. change (2 ^ 8) with 256.
  change (2 ^ 3) with 8. change (2 ^ 1) with 2.
  Z.div_mod_to_equations. lia.
Qed.

Lemma popcount_bits_S (n : nat) (f : Z) :
  popcount_bits (S n) f =
  Z.b2z (Z.testbit f (Z.of_nat n)) + popcount_bits n f.
Proof. reflexivity. Qed.

Lemma popcount32_flip31 (f : Z) :
  is_frame f ->
  Z.odd (popcount32 (Z.lxor f (2 ^ 31))) = negb (Z.odd (popcount32 f)).
Proof.
  intros Hf. unfold popcount32.
  rewrite !(popcount_bits_S 31).
  rewrite (popcount_bits_ext 31 (Z.lxor f (2 ^ 31)) f).
  - rewrite !Z.odd_add, Z.lxor_spec.
    change (Z.of_nat 31) with 31.
    rewrite (Z.pow2_bits_true 31) by lia.
    destruct (Z.testbit f 31), (Z.odd (popcount_bits 31 f)); reflexivity.
  - intros i Hi. rewrite Z.lxor_spec, Z.pow2_bits_false by lia.
    apply xorb_false_r.
Qed.

Lemma lxor_flip31_frame f : is_frame f -> is_frame (Z.lxor f (2 ^ 31)).
Proof.
  unfold is_frame. intros Hf.
  split.
  - apply Z.lxor_nonneg. lia.
  - destruct (Z.eq_dec (Z.lxor f (2^31)) 0) as [->|Hnz]; [lia|].
    apply Z.log2_lt_pow2.
    + assert (0 <= Z.lxor f (2 ^ 31)) by (apply Z.lxor_nonneg; lia). lia.
    + eapply Z.le_lt_trans; [apply Z.log2_lxor; lia|].
      apply Z.max_lub_lt.
      * destruct (Z.eq_dec f 0) as [->|]; [simpl; lia|]. apply Z.log2_lt_pow2; lia.
      * rewrite Z.log2_pow2; lia.
Qed.

(** [isValidResponse] in terms of the population count and the kind field. *)
Lemma isValidResponse_char (f : Z) :
  is_frame f ->
  isValidResponse f =
  Z.even (popcount32 f) &&
  ((kind_field f =? msg_type_code READ_ACK)
   || (kind_field f =? msg_type_code WRITE_ACK)).
Proof.
  intros Hf. unfold isValidResponse.
  rewrite parity_popcount, msg_type_bits by assumption.
  rewrite <- Z.negb_odd.
  destruct (Z.odd (popcount32 f)); reflexivity.
Qed.

(** C4. For every 32-bit frame [f], [isValidResponse f] is [true] exactly
    when the population count of the 32 bits of [f] is even and the 3-bit
    message-kind field (bits 28-30) is [READ_ACK] or [WRITE_ACK]. In
    particular flipping the parity bit (bit 31) of a valid acknowledgment
    gives a frame that is rejected, and an even-parity frame whose kind is
    [READ_DATA] or [WRITE_DATA] is rejected. *)
Theorem isValidResponse_iff (f : Z) :
  is_frame f ->
  (isValidResponse f = true <->
   Z.even (popcount32 f) = true /\
   (kind_field f = msg_type_code READ_ACK \/
    kind_field f = msg_type_code WRITE_ACK))
  /\ (isValidResponse f = true -> isValidResponse (Z.lxor f (2 ^ 31)) = false)
  /\ (Z.even (popcount32 f) = true ->
      kind_field f = msg_type_code READ_DATA \/
      kind_field f = msg_type_code WRITE_DATA ->
      isValidResponse f = false).
Proof.
  intros Hf. split; [| split].
  - rewrite isValidResponse_char by assumption.
    rewrite andb_true_iff, orb_true_iff, !Z.eqb_eq. reflexivity.
  - rewrite !isValidResponse_char by auto using lxor_flip31_frame.
    rewrite <- !Z.negb_odd, popcount32_flip31 by assumption.
    destruct (Z.odd (popcount32 f)); simpl; [discriminate | reflexivity].
  - intros _ Hkind. rewrite isValidResponse_char by assumption.
    destruct Hkind as [-> | ->]; simpl; apply andb_false_r.
Qed.

Lemma isValidResponse_iff_witness :
  isValidResponse 3221225472 = true /\
  isValidResponse (Z.lxor 3221225472 (2 ^ 31)) = false.
Proof.
  assert (Hf : is_frame 3221225472) by (unfold is_frame; lia).
  destruct (isValidResponse_iff 3221225472 Hf) as [Hiff [Hflip _]].
  assert (Hv : isValidResponse 3221225472 = true).
  { apply Hiff. split; [vm_compute; reflexivity | left; vm_compute; reflexivity]. }
  split; [exact Hv | exact (Hflip Hv)].
Defined.

(** ** Layout of a built request *)

Lemma bits_above_pow2 (a n i : Z) :
  0 <= a < 2 ^ n -> n <= i -> Z.testbit a i = false.
Proof.
  intros Ha Hi.
  destruct (Z.eq_dec a 0) as [-> | Hnz]; [apply Z.bits_0 |].
  apply Z.bits_above_log2; [lia |].
  apply Z.lt_le_trans with n; [| assumption].
  apply Z.log2_lt_pow2; lia.
Qed.

Lemma land_shifted_0 (a b n : Z) :
  0 <= n -> 0 <= a < 2 ^ n -> Z.land a (b * 2 ^ n) = 0.
Proof.
  intros Hn Ha. apply Z.bits_inj'. intros i Hi.
  rewrite Z.land_spec, Z.bits_0.
  destruct (Z.lt_ge_cases i n) as [Hlt | Hge].
  - rewrite Z.mul_pow2_bits_low by lia. apply andb_false_r.
  - rewrite (bits_above_pow2 a n i) by assumption. reflexivity.
Qed.

Lemma add_shifted_lxor (a b n : Z) :
  0 <= n -> 0 <= a < 2 ^ n -> a + b * 2 ^ n = Z.lxor a (b * 2 ^ n).
Proof.
  intros Hn Ha. apply Z.add_nocarry_lxor, land_shifted_0; assumption.
Qed.

Lemma lor_shifted_add (a b n : Z) :
  0 <= n -> 0 <= a < 2 ^ n -> Z.lor a (b * 2 ^ n) = a + b * 2 ^ n.
Proof.
  intros Hn Ha.
  rewrite <- Z.lxor_lor by (apply land_shifted_0; assumption).
  symmetry. apply add_shifted_lxor; assumption.
Qed.

Lemma request_body_range type id data :
  0 <= id < 2 ^ 8 -> 0 <= data < 2 ^ 16 ->
  0 <= request_body type id data < 2 ^ 29.
Proof.
  unfold request_body. intros Hid Hdata.
  destruct (msg_type_eqb type WRITE_DATA); lia.
Qed.

Lemma buildRequest_body type id data :
  0 <= id < 2 ^ 8 -> 0 <= data < 2 ^ 16 ->
  buildRequest type id data =
  if parity (request_body type id data)
  then request_body type id data + 2 ^ 31
  else request_body type id data.
Proof.
  intros Hid Hdata.
  pose proof (request_body_range type id data Hid Hdata) as Hbody.
  unfold buildRequest.
  assert (Hreq :
    Z.lor (if msg_type_eqb type WRITE_DATA
           then Z.lor (u32 data) (shl32 1 28) else u32 data)
          (shl32 (u32 id) 16) = request_body type id data).
  { unfold request_body, u32, shl32, u32.
    rewrite (Z.mod_small data), (Z.mod_small id) by lia.
    rewrite !Z.shiftl_mul_pow2 by lia.
    rewrite (Z.mod_small (id * 2 ^ 16)), (Z.mod_small (1 * 2 ^ 28)) by lia.
    destruct (msg_type_eqb type WRITE_DATA).
    - rewrite <- Z.lor_assoc, (Z.lor_comm (1 * 2 ^ 28)), Z.lor_assoc.
      rewrite (lor_shifted_add data id 16) by lia.
      rewrite (lor_shifted_add _ 1 28) by lia. lia.
    - rewrite (lor_shifted_add data id 16) by lia. lia. }
  rewrite Hreq.
  destruct (parity (request_body type id data)); [| reflexivity].
  change (shl32 1 31) with (1 * 2 ^ 31).
  rewrite lor_shifted_add by lia. lia.
Qed.

Lemma parity_set_bit31 (r : Z) :
  0 <= r < 2 ^ 31 -> parity (r + 2 ^ 31) = negb (parity r).
Proof.
  intros Hr.
  assert (Hf : is_frame r) by (unfold is_frame; lia).
  replace (r + 2 ^ 31) with (Z.lxor r (2 ^ 31)).
  - rewrite !parity_popcount by auto using lxor_flip31_frame.
    apply popcount32_flip31. assumption.
  - change (2 ^ 31) with (1 * 2 ^ 31) at 1.
    rewrite <- add_shifted_lxor by lia. lia.
Qed.

Lemma bit31_of_even_popcount (f : Z) :
  Z.even (popcount32 f) = true ->
  Z.testbit f 31 = Z.odd (popcount_bits 31 f).
Proof.
  unfold popcount32. rewrite (popcount_bits_S 31).
  rewrite <- Z.negb_odd, Z.odd_add. change (Z.of_nat 31) with 31.
  destruct (Z.testbit f 31), (Z.odd (popcount_bits 31 f));
    simpl; intros H; congruence.
Qed.

Lemma buildRequest_frame type id data :
  0 <= id < 2 ^ 8 -> 0 <= data < 2 ^ 16 ->
  is_frame (buildRequest type id data).
Proof.
  intros Hid Hdata.
  pose proof (request_body_range type id data Hid Hdata).
  rewrite buildRequest_body by assumption. unfold is_frame.
  destruct (parity (request_body type id data)); lia.
Qed.

(** C5. For every message kind, every data-point identifier (0..255) and
    every 16-bit payload, the frame [buildRequest] returns has an even
    population count over its 32 bits, that is [parity] of it is [false];
    equivalently its bit 31 is the odd parity of the 31 bits below. *)
Theorem buildRequest_parity_even type id data :
  0 <= id < 2 ^ 8 -> 0 <= data < 2 ^ 16 ->
  parity (buildRequest type id data) = false
  /\ Z.even (popcount32 (buildRequest type id data)) = true
  /\ Z.testbit (buildRequest type id data) 31 =
     Z.odd (popcount_bits 31 (buildRequest type id data)).
Proof.
  intros Hid Hdata.
  assert (Hpar : parity (buildRequest type id data) = false).
  { pose proof (request_body_range type id data Hid Hdata).
    rewrite buildRequest_body by assumption.
    destruct (parity (request_body type id data)) eqn:Hp.
    - rewrite parity_set_bit31, Hp by lia. reflexivity.
    - exact Hp. }
  assert (Heven : Z.even (popcount32 (buildRequest type id data)) = true).
  { rewrite <- Z.negb_odd, <- parity_popcount, Hpar
      by (apply buildRequest_frame; assumption).
    reflexivity. }
  auto using bit31_of_even_popcount.
Qed.

Lemma buildRequest_parity_even_witness :
  parity (buildRequest WRITE_DATA 1 10880) = false
  /\ Z.even (popcount32 (buildRequest WRITE_DATA 1 10880)) = true
  /\ Z.testbit (buildRequest WRITE_DATA 1 10880) 31 =
     Z.odd (popcount_bits 31 (buildRequest WRITE_DATA 1 10880)).
Proof.
  apply (buildRequest_parity_even WRITE_DATA 1 10880); lia.
Defined.

Lemma buildRequest_low16 type id data :
  payload_field (buildRequest type id data) = data mod 2 ^ 16.
Proof.
  unfold payload_field, buildRequest.
  rewrite <- !(Z.land_ones _ 16) by lia.
  assert (Hid : Z.land (shl32 (u32 id) 16) (Z.ones 16) = 0).
  { rewrite Z.land_ones by lia. unfold shl32, u32.
    rewrite Z.shiftl_mul_pow2 by lia.
    change (2 ^ 32) with 4294967296. change (2 ^ 16) with 65536.
    Z.div_mod_to_equations. lia. }
  assert (Hdata : Z.land (u32 data) (Z.ones 16) = Z.land data (Z.ones 16)).
  { rewrite !Z.land_ones by lia. unfold u32.
    change (2 ^ 32) with 4294967296. change (2 ^ 16) with 65536.
    Z.div_mod_to_equations. lia. }
  destruct (msg_type_eqb type WRITE_DATA);
    match goal with
    | |- context [if parity ?r then _ else _] => destruct (parity r)
    end;
    rewrite ?Z.land_lor_distr_l, Hid, Hdata;
    change (Z.land (shl32 1 28) (Z.ones 16)) with 0;
    change (Z.land (shl32 1 31) (Z.ones 16)) with 0;
    rewrite ?Z.lor_0_r; reflexivity.
Qed.

Lemma buildRequest_small_fields type id data :
  0 <= id < 2 ^ 8 -> 0 <= data < 2 ^ 16 ->
  payload_field (buildRequest type id data) = data
  /\ id_field (buildRequest type id data) = id
  /\ spare_field (buildRequest type id data) = 0.
Proof.
  intros Hid Hdata.
  rewrite buildRequest_body by assumption.
  unfold payload_field, id_field, spare_field, request_body.
  change (2 ^ 4) with 16. change (2 ^ 8) with 256 in *.
  change (2 ^ 16) with 65536 in *. change (2 ^ 24) with 16777216.
  change (2 ^ 28) with 268435456. change (2 ^ 31) with 2147483648.
  destruct (parity _), (msg_type_eqb type WRITE_DATA);
    repeat split; Z.div_mod_to_equations; lia.
Qed.




(** ** Boiler status request and status flags *)

Lemma getMessageType_kind_field (f : Z) :
  getMessageType f = msg_type_of_code (kind_field f).
Proof.
  unfold getMessageType, kind_field.
  change 7 with (Z.ones 3).
  rewrite Z.land_ones, Z.shiftr_div_pow2 by lia. reflexivity.
Qed.

Lemma to_bool_land_pow2 (r k : Z) :
  0 <= k -> to_bool (Z.land r (2 ^ k)) = Z.testbit r k.
Proof.
  intros Hk. unfold to_bool.
  assert (Hland : Z.land r (2 ^ k) = if Z.testbit r k then 2 ^ k else 0).
  { apply Z.bits_inj'. intros i Hi.
    rewrite Z.land_spec, Z.pow2_bits_eqb by lia.
    destruct (Z.eqb_spec k i) as [<- | Hne].
    - destruct (Z.testbit r k) eqn:Hb.
      + rewrite Z.pow2_bits_true by lia. reflexivity.
      + rewrite Z.bits_0. reflexivity.
    - rewrite andb_false_r.
      destruct (Z.testbit r k).
      + rewrite Z.pow2_bits_false by lia. reflexivity.
      + rewrite Z.bits_0. reflexivity. }
  rewrite Hland.
  destruct (Z.testbit r k); [| reflexivity].
  assert (0 < 2 ^ k) by (apply Z.pow_pos_nonneg; lia).
  destruct (Z.eqb_spec (2 ^ k) 0); [lia | reflexivity].
Qed.

Lemma low_byte_testbit (r k : Z) :
  0 <= k < 8 ->
  Z.testbit (low_byte (payload_field r)) k = Z.testbit r k.
Proof.
  intros Hk. unfold low_byte, payload_field.
  rewrite !Z.mod_pow2_bits_low by lia. reflexivity.
Qed.

(** C3 (amended). [buildSetBoilerStatusRequest] with only
    [enableCentralHeating] set builds a frame of kind [READ_DATA] for the
    [Status] identifier whose payload has high byte 00000001 and low byte 0
    (the master flags are shifted into bits 8-15). For a response whose
    payload low byte is 00000011 the accessors report fault (bit 0) and
    central-heating-active (bit 1), and hot-water-active (bit 2) is false. *)
Theorem status_request_and_flags (Status : OpenThermMessageID) :
  0 <= Status < 2 ^ 8 ->
  let f := buildSetBoilerStatusRequest Status true false false false false in
  getMessageType f = READ_DATA
  /\ id_field f = Status
  /\ high_byte (payload_field f) = 1
  /\ low_byte (payload_field f) = 0
  /\ forall resp,
       low_byte (payload_field resp) = 3 ->
       isFault resp = true
       /\ isCentralHeatingEnabled resp = true
       /\ isHotWaterEnabled resp = false.
Proof.
  intros HStatus f.
  assert (Hf : f = buildRequest READ_DATA Status 256) by reflexivity.
  assert (Hdata : 0 <= 256 < 2 ^ 16) by lia.
  destruct (buildRequest_small_fields READ_DATA Status 256 HStatus Hdata)
    as [Hpayload [Hid _]].
  rewrite <- Hf in Hpayload, Hid.
  split; [| split; [| split; [| split]]].
  - rewrite getMessageType_kind_field.
    replace (kind_field f) with 0; [reflexivity |].
    rewrite Hf, buildRequest_body by assumption.
    unfold kind_field, request_body.
    change (msg_type_eqb READ_DATA WRITE_DATA) with false. cbv iota.
    change (2 ^ 3) with 8. change (2 ^ 8) with 256 in *.
    change (2 ^ 16) with 65536 in *.
    change (2 ^ 28) with 268435456. change (2 ^ 31) with 2147483648.
    destruct (parity _); Z.div_mod_to_equations; lia.
  - exact Hid.
  - rewrite Hpayload. reflexivity.
  - rewrite Hpayload. reflexivity.
  - intros resp Hlow.
    unfold isFault, isCentralHeatingEnabled, isHotWaterEnabled.
    change 1 with (2 ^ 0). change 2 with (2 ^ 1). change 4 with (2 ^ 2).
    rewrite !to_bool_land_pow2 by lia.
    rewrite <- (low_byte_testbit resp 0), <- (low_byte_testbit resp 1),
      <- (low_byte_testbit resp 2), Hlow by lia.
    repeat split.
Qed.

Lemma status_request_and_flags_witness :
  getMessageType (buildSetBoilerStatusRequest 0 true false false false false)
  = READ_DATA
  /\ isHotWaterEnabled 3221225475 = false.
Proof.
  assert (HStatus : 0 <= 0 < 2 ^ 8) by lia.
  destruct (status_request_and_flags 0 HStatus) as [Hkind [_ [_ [_ Hflags]]]].
  split; [exact Hkind |].
  apply (Hflags 3221225475). reflexivity.
Defined.

(** C3, as stated, fails twice: the built payload has low byte 0 (the flag
    is in the high byte), and a response 0xC0000003 (an acknowledgment with
    even parity and payload low byte 00000011) is not reported as
    hot-water-active. *)
Lemma status_low_byte_counterexample :
  low_byte (payload_field
              (buildSetBoilerStatusRequest 0 true false false false false))
  <> 1
  /\ isValidResponse 3221225475 = true
  /\ low_byte (payload_field 3221225475) = 3
  /\ isHotWaterEnabled 3221225475 <> true.
Proof.
  repeat split; vm_compute; discriminate || reflexivity.
Qed.

(** ** Temperature of a rejected frame *)

(** C10. For every frame [f] that [isValidResponse] rejects,
    [getTemperature f] is exactly 0: the payload is not decoded. *)
Theorem getTemperature_invalid (f : Z) :
  is_frame f -> isValidResponse f = false -> getTemperature f = 0%Q.
Proof.
  intros _ Hinvalid. unfold getTemperature. rewrite Hinvalid. reflexivity.
Qed.

Lemma getTemperature_invalid_witness :
  getFloat 1610623616 = (10880 # 256)%Q /\ getTemperature 1610623616 = 0%Q.
Proof.
  split; [reflexivity |].
  apply (getTemperature_invalid 1610623616).
  - unfold is_frame. lia.
  - vm_compute. reflexivity.
Defined.

(** ** Receive decoder *)

Lemma status_eqb_eq (a b : OpenThermStatus) : status_eqb a b = true <-> a = b.
Proof. destruct a, b; simpl; split; congruence. Qed.

Lemma isReady_false (o : OpenTherm) : status o <> READY -> isReady o = false.
Proof.
  unfold isReady. intros Hne.
  destruct (status_eqb (status o) READY) eqn:Heq; [| reflexivity].
  apply status_eqb_eq in Heq. contradiction.
Qed.

(** C7. In [RESPONSE_RECEIVING] an edge is acted on only when more than 750
    microseconds have passed since the recorded timestamp. Below 32 received
    bits the response is shifted left by one, the complement of the line
    level is ORed in, the counter is incremented and the timestamp recorded;
    from 32 bits on, the edge moves the session to [RESPONSE_READY] whatever
    the line level. *)
Theorem handleInterrupt_receiving (o : OpenTherm) (newTs level : Z) :
  status o = RESPONSE_RECEIVING ->
  (sub32 newTs (responseTimestamp o) <= 750 ->
   handleInterrupt newTs level o = o)
  /\ (sub32 newTs (responseTimestamp o) > 750 ->
      responseBitIndex o < 32 ->
      handleInterrupt newTs level o =
      mkOpenTherm RESPONSE_RECEIVING
                  (Z.lor (shl32 (response o) 1)
                         (Z.b2z (negb (to_bool level))))
                  (responseStatus o) newTs (responseBitIndex o + 1)
                  (processResponseCallback o) (callbackCalls o)
                  (outPinWrites o))
  /\ (sub32 newTs (responseTimestamp o) > 750 ->
      32 <= responseBitIndex o ->
      forall level',
        handleInterrupt newTs level' o =
        mkOpenTherm RESPONSE_READY (response o) (responseStatus o) newTs
                    (responseBitIndex o) (processResponseCallback o)
                    (callbackCalls o) (outPinWrites o)).
Proof.
  intros Hst. unfold handleInterrupt, isReady. rewrite Hst. simpl.
  split; [| split].
  - intros Hle. destruct (Z.gtb_spec (sub32 newTs (responseTimestamp o)) 750);
      [lia | reflexivity].
  - intros Hgt Hidx.
    destruct (Z.gtb_spec (sub32 newTs (responseTimestamp o)) 750); [| lia].
    destruct (Z.ltb_spec (responseBitIndex o) 32); [| lia].
    unfold set_responseBitIndex, set_responseTimestamp, set_response. simpl.
    rewrite Hst. unfold to_bool. rewrite negb_involutive. reflexivity.
  - intros Hgt Hidx level'.
    destruct (Z.gtb_spec (sub32 newTs (responseTimestamp o)) 750); [| lia].
    destruct (Z.ltb_spec (responseBitIndex o) 32); [lia |].
    unfold set_responseTimestamp, set_status. simpl. reflexivity.
Qed.

Lemma handleInterrupt_receiving_witness :
  handleInterrupt 2000 LOW
    (mkOpenTherm RESPONSE_RECEIVING 5 NONE 1000 3 true [] []) =
  mkOpenTherm RESPONSE_RECEIVING 11 NONE 2000 4 true [] []
  /\ handleInterrupt 1500 LOW
       (mkOpenTherm RESPONSE_RECEIVING 5 NONE 1000 3 true [] []) =
     mkOpenTherm RESPONSE_RECEIVING 5 NONE 1000 3 true [] []
  /\ handleInterrupt 2000 HIGH
       (mkOpenTherm RESPONSE_RECEIVING 5 NONE 1000 32 true [] []) =
     mkOpenTherm RESPONSE_READY 5 NONE 2000 32 true [] [].
Proof.
  split; [| split].
  - apply (handleInterrupt_receiving
             (mkOpenTherm RESPONSE_RECEIVING 5 NONE 1000 3 true [] [])
             2000 LOW eq_refl);
      [vm_compute; reflexivity | simpl; lia].
  - apply (handleInterrupt_receiving
             (mkOpenTherm RESPONSE_RECEIVING 5 NONE 1000 3 true [] [])
             1500 LOW eq_refl).
    vm_compute. discriminate.
  - apply (handleInterrupt_receiving
             (mkOpenTherm RESPONSE_RECEIVING 5 NONE 1000 32 true [] [])
             2000 LOW eq_refl);
      [vm_compute; reflexivity | simpl; lia].
Defined.

(** ** Rejected send *)

Lemma sendRequestAync_not_ready (o : OpenTherm) (request now : Z) :
  status o <> READY -> sendRequestAync request now o = (false, o).
Proof.
  intros Hne. unfold sendRequestAync.
  rewrite (isReady_false o Hne). reflexivity.
Qed.

(** C8. [sendRequestAync] invoked while the session is not [READY] returns
    [false] and leaves the whole object unchanged; the blocking
    [sendRequest] then returns the zero frame at once, whatever the
    environment does. *)
Theorem sendRequestAync_rejected (o : OpenTherm) (request now : Z) :
  status o <> READY ->
  sendRequestAync request now o = (false, o)
  /\ forall polls, sendRequest request now polls o = Some (0, o).
Proof.
  intros Hne.
  pose proof (sendRequestAync_not_ready o request now Hne) as Hsend.
  split; [exact Hsend |].
  intros polls. unfold sendRequest. rewrite Hsend. reflexivity.
Qed.

Lemma sendRequestAync_rejected_witness :
  sendRequestAync 7 1000
    (mkOpenTherm RESPONSE_RECEIVING 5 NONE 900 3 true [] []) =
  (false, mkOpenTherm RESPONSE_RECEIVING 5 NONE 900 3 true [] []).
Proof.
  apply (sendRequestAync_rejected
           (mkOpenTherm RESPONSE_RECEIVING 5 NONE 900 3 true [] []) 7 1000).
  simpl. discriminate.
Defined.

(** ** Polling controller *)

Lemma process_timeout (o : OpenTherm) (newTs : Z) :
  status o <> READY -> status o <> NOT_INITIALIZED ->
  sub32 newTs (responseTimestamp o) > 800000 ->
  process newTs o = timed_out o.
Proof.
  intros Hready Hinit Hlate. unfold process.
  destruct (Z.gtb_spec (sub32 newTs (responseTimestamp o)) 800000); [| lia].
  unfold timed_out, notify.
  destruct o as [st r rs ts bi cb calls writes]; simpl in *.
  destruct st, cb; try contradiction; reflexivity.
Qed.




Lemma handleInterrupt_idle (o : OpenTherm) (newTs level : Z) :
  status o = DELAY -> handleInterrupt newTs level o = o.
Proof.
  intros Hst. unfold handleInterrupt, isReady. rewrite Hst. reflexivity.
Qed.

Lemma process_delay (o : OpenTherm) (newTs : Z) :
  status o = DELAY ->
  sub32 newTs (responseTimestamp o) <= 100000 ->
  process newTs o = o.
Proof.
  intros Hst Hearly. unfold process. rewrite Hst. simpl.
  destruct (Z.gtb_spec (sub32 newTs (responseTimestamp o)) 800000); [lia |].
  destruct (Z.gtb_spec (sub32 newTs (responseTimestamp o)) 100000); [lia |].
  reflexivity.
Qed.

Lemma process_delay_ready (o : OpenTherm) (newTs : Z) :
  status o = DELAY ->
  sub32 newTs (responseTimestamp o) > 100000 ->
  status (process newTs o) = READY.
Proof.
  intros Hst Hlate. unfold process. rewrite Hst. simpl.
  destruct (Z.gtb_spec (sub32 newTs (responseTimestamp o)) 800000).
  - reflexivity.
  - destruct (Z.gtb_spec (sub32 newTs (responseTimestamp o)) 100000); [| lia].
    reflexivity.
Qed.

(** C9 (amended). When the session is in [RESPONSE_INVALID] or
    [RESPONSE_READY] and [process] runs no more than 800,000 microseconds
    after the recorded timestamp, the session moves to [DELAY]. From [DELAY]
    a call moves the session to [READY] exactly when it is [process] running
    more than 100,000 microseconds after the recorded timestamp; every other
    call leaves the object as it is. *)
Theorem quiet_period (o : OpenTherm) :
  (forall newTs,
      status o = RESPONSE_INVALID \/ status o = RESPONSE_READY ->
      sub32 newTs (responseTimestamp o) <= 800000 ->
      status (process newTs o) = DELAY
      /\ responseTimestamp (process newTs o) = responseTimestamp o)
  /\ (status o = DELAY ->
      forall c,
        (status (step c o) = READY <->
         exists newTs, c = CallProcess newTs
                       /\ sub32 newTs (responseTimestamp o) > 100000)
        /\ (status (step c o) <> READY -> step c o = o)).
Proof.
  split.
  - intros newTs Hst Hle. unfold process.
    destruct (Z.gtb_spec (sub32 newTs (responseTimestamp o)) 800000); [lia |].
    rewrite andb_false_r.
    destruct Hst as [Hst | Hst]; rewrite Hst; simpl; unfold notify; simpl;
      destruct (processResponseCallback o); simpl; split; reflexivity.
  - intros Hst c.
    assert (Hne : status o <> READY) by (rewrite Hst; discriminate).
    destruct c as [request now | newTs level | newTs]; simpl.
    + rewrite (sendRequestAync_not_ready o request now Hne). simpl.
      split; [| reflexivity].
      split; [congruence |]. intros [t [Hc _]]. discriminate Hc.
    + rewrite handleInterrupt_idle by assumption.
      split; [| reflexivity].
      split; [congruence |]. intros [t [Hc _]]. discriminate Hc.
    + destruct (Z_le_gt_dec (sub32 newTs (responseTimestamp o)) 100000)
        as [Hearly | Hlate].
      * rewrite process_delay by assumption.
        split; [| reflexivity].
        split; [congruence |]. intros [t [Hc Ht]]. injection Hc as <-. lia.
      * pose proof (process_delay_ready o newTs Hst Hlate) as Hready.
        split; [| congruence].
        split; [| intros _; exact Hready].
        intros _. exists newTs. split; [reflexivity | exact Hlate].
Qed.

Lemma quiet_period_witness :
  status (process 60000 (mkOpenTherm RESPONSE_INVALID 0 NONE 53500 0 true [] []))
  = DELAY
  /\ step (CallProcess 150000) (mkOpenTherm DELAY 0 INVALID 53500 0 true [] [])
     = mkOpenTherm DELAY 0 INVALID 53500 0 true [] [].
Proof.
  split.
  - apply (proj1 (quiet_period
                    (mkOpenTherm RESPONSE_INVALID 0 NONE 53500 0 true [] []))
                 60000).
    + left. reflexivity.
    + vm_compute. discriminate.
  - apply (proj2 (quiet_period
                    (mkOpenTherm DELAY 0 INVALID 53500 0 true [] []))
                 eq_refl (CallProcess 150000)).
    vm_compute. discriminate.
Defined.

(** C9, as stated, fails when [process] runs late: a session started with
    [begin], whose request was answered by a malformed start edge at 20,000
    microseconds ([RESPONSE_INVALID]), polled at 900,000 microseconds, goes
    to [READY] at once and is never in [DELAY]. *)
Lemma late_poll_skips_quiet_period :
  status (run [CallSend 0 0; CallEdge 20000 LOW] (begin true (OpenTherm_new 0)))
  = RESPONSE_INVALID
  /\ status (run [CallSend 0 0; CallEdge 20000 LOW; CallProcess 900000]
                 (begin true (OpenTherm_new 0)))
     <> DELAY.
Proof.
  split; vm_compute; discriminate || reflexivity.
Qed.

(** ** Completion notifications *)

(** The scenario of a well-formed acknowledgment carrying 42.5 (payload
    0x2A80): the decoder rebuilds the frame from the edges and the first
    [process] reports [SUCCESS]. *)
Example exchange_boiler_temperature :
  response (exchange 0 3221236352 [60000]) = 3221236352
  /\ responseStatus (exchange 0 3221236352 [60000]) = SUCCESS
  /\ getTemperature (response (exchange 0 3221236352 [60000])) = (10880 # 256)%Q.
Proof. repeat split; vm_compute; reflexivity. Qed.

Lemma handleInterrupt_callbackCalls (o : OpenTherm) (newTs level : Z) :
  callbackCalls (handleInterrupt newTs level o) = callbackCalls o.
Proof.
  unfold handleInterrupt.
  repeat match goal with
         | |- context [if ?b then _ else _] => destruct b
         end; reflexivity.
Qed.

(** C1. [handleInterrupt] never calls the completion callback. But an
    exchange is not always notified once: a request sent at time 0 is
    answered by the acknowledgment 0xC0002A80 from 20,000 microseconds on;
    [process] at 60,000 reports [SUCCESS] and enters [DELAY]; the next
    [process], at 860,000 microseconds, finds [DELAY] more than 800,000
    microseconds after the last edge and calls the callback a second time,
    with [TIMEOUT], for the same exchange. *)
Theorem late_poll_notifies_twice :
  (forall o newTs level,
      callbackCalls (handleInterrupt newTs level o) = callbackCalls o)
  /\ status (exchange 0 3221236352 []) = RESPONSE_READY
  /\ status (exchange 0 3221236352 [60000]) = DELAY
  /\ callbackCalls (exchange 0 3221236352 [60000]) = [(3221236352, SUCCESS)]
  /\ callbackCalls (exchange 0 3221236352 [60000; 860000]) =
     [(3221236352, SUCCESS); (3221236352, TIMEOUT)].
Proof.
  split; [exact handleInterrupt_callbackCalls |].
  repeat split; vm_compute; reflexivity.
Qed.

(** ** Further properties of the frame codec *)

(** X1. [parity] of a 32-bit frame is [true] exactly when the number of its
    set bits is odd. *)
Theorem parity_odd_popcount (f : Z) :
  is_frame f -> (parity f = true <-> Z.odd (popcount32 f) = true).
Proof.
  intros Hf. rewrite parity_popcount by assumption. reflexivity.
Qed.

Lemma parity_odd_popcount_witness :
  parity 7 = true <-> Z.odd (popcount32 7) = true.
Proof.
  apply (parity_odd_popcount 7). unfold is_frame. lia.
Defined.

Lemma kind_field_buildRequest type id data :
  0 <= id < 2 ^ 8 -> 0 <= data < 2 ^ 16 ->
  kind_field (buildRequest type id data) =
  if msg_type_eqb type WRITE_DATA then 1 else 0.
Proof.
  intros Hid Hdata.
  rewrite buildRequest_body by assumption.
  unfold kind_field, request_body.
  change (2 ^ 3) with 8. change (2 ^ 8) with 256 in *.
  change (2 ^ 16) with 65536 in *.
  change (2 ^ 28) with 268435456. change (2 ^ 31) with 2147483648.
  destruct (parity _), (msg_type_eqb type WRITE_DATA);
    Z.div_mod_to_equations; lia.
Qed.

(** X2. The kind read back from a built request is [WRITE_DATA] when
    [WRITE_DATA] was asked for and [READ_DATA] for every other kind:
    [buildRequest] only distinguishes [WRITE_DATA]. *)
Theorem getMessageType_buildRequest type id data :
  0 <= id < 2 ^ 8 -> 0 <= data < 2 ^ 16 ->
  getMessageType (buildRequest type id data) =
  match type with WRITE_DATA => WRITE_DATA | _ => READ_DATA end.
Proof.
  intros Hid Hdata.
  rewrite getMessageType_kind_field, kind_field_buildRequest by assumption.
  destruct type; reflexivity.
Qed.

Lemma getMessageType_buildRequest_witness :
  getMessageType (buildRequest READ_ACK 25 10880) = READ_DATA.
Proof.
  apply (getMessageType_buildRequest READ_ACK 25 10880); lia.
Defined.

Lemma getUInt_of_request type id data :
  getUInt (buildRequest type id data) = data mod 2 ^ 16.
Proof.
  unfold getUInt. change 65535 with (Z.ones 16).
  rewrite Z.land_ones by lia. apply buildRequest_low16.
Qed.

(** X3. Round trip of the payload: [getUInt] of a built request is the
    payload reduced to 16 bits, whatever the kind and the identifier; a
    payload in 0..65535 is read back unchanged. *)
Theorem getUInt_buildRequest type id data :
  getUInt (buildRequest type id data) = data mod 2 ^ 16
  /\ (0 <= data < 2 ^ 16 -> getUInt (buildRequest type id data) = data).
Proof.
  split; [apply getUInt_of_request |].
  intros Hdata. rewrite getUInt_of_request. apply Z.mod_small. assumption.
Qed.

Lemma getUInt_buildRequest_witness :
  getUInt (buildRequest WRITE_DATA 1 10880) = 10880.
Proof.
  apply (proj2 (getUInt_buildRequest WRITE_DATA 1 10880)). lia.
Defined.

(** X4. A frame built by [buildRequest] is never accepted by
    [isValidResponse]: its parity is even but its kind is a request kind. A
    request echoed back on the line is rejected, and [getTemperature] of it
    is 0. *)
Theorem buildRequest_not_valid_response type id data :
  0 <= id < 2 ^ 8 -> 0 <= data < 2 ^ 16 ->
  isValidResponse (buildRequest type id data) = false
  /\ getTemperature (buildRequest type id data) = 0%Q.
Proof.
  intros Hid Hdata.
  assert (H : isValidResponse (buildRequest type id data) = false).
  { rewrite isValidResponse_char by (apply buildRequest_frame; assumption).
    rewrite kind_field_buildRequest by assumption.
    destruct (msg_type_eqb type WRITE_DATA); apply andb_false_r. }
  split; [exact H |].
  unfold getTemperature. rewrite H. reflexivity.
Qed.

Lemma buildRequest_not_valid_response_witness :
  isValidResponse (buildRequest WRITE_DATA 1 10880) = false
  /\ getTemperature (buildRequest WRITE_DATA 1 10880) = 0%Q.
Proof.
  apply (buildRequest_not_valid_response WRITE_DATA 1 10880); lia.
Defined.

(** X5. The boiler status request carries the five enable flags in bits
    8-12 of the payload, in the order of the arguments, and nothing else; it
    is a [READ_DATA] request for the [Status] identifier. *)
Theorem buildSetBoilerStatusRequest_flags (Status : OpenThermMessageID)
        (ch dhw cool otc ch2 : bool) :
  0 <= Status < 2 ^ 8 ->
  let f := buildSetBoilerStatusRequest Status ch dhw cool otc ch2 in
  getUInt f =
  2 ^ 8 * (Z.b2z ch + 2 * Z.b2z dhw + 4 * Z.b2z cool + 8 * Z.b2z otc
           + 16 * Z.b2z ch2)
  /\ getMessageType f = READ_DATA
  /\ id_field f = Status.
Proof.
  intros HStatus f.
  set (data := 2 ^ 8 * (Z.b2z ch + 2 * Z.b2z dhw + 4 * Z.b2z cool
                        + 8 * Z.b2z otc + 16 * Z.b2z ch2)).
  assert (Hf : f = buildRequest READ_DATA Status data).
  { unfold f, buildSetBoilerStatusRequest, data.
    destruct ch, dhw, cool, otc, ch2; reflexivity. }
  assert (Hdata : 0 <= data < 2 ^ 16).
  { unfold data. destruct ch, dhw, cool, otc, ch2; simpl; lia. }
  rewrite Hf. split; [| split].
  - rewrite getUInt_of_request. apply Z.mod_small. assumption.
  - rewrite getMessageType_kind_field, kind_field_buildRequest by assumption.
    reflexivity.
  - apply buildRequest_small_fields; assumption.
Qed.

Lemma buildSetBoilerStatusRequest_flags_witness :
  getUInt (buildSetBoilerStatusRequest 0 true true false false true) = 4864.
Proof.
  apply (buildSetBoilerStatusRequest_flags 0 true true false false true).
  lia.
Defined.

(** ** Fixed-point temperatures *)

Lemma Qlt_bool_iff (a b : Q) : Qlt_bool a b = true <-> (a < b)%Q.
Proof.
  unfold Qlt_bool. rewrite negb_true_iff.
  destruct (Qle_bool b a) eqn:Hle.
  - apply Qle_bool_iff in Hle. split; [discriminate |].
    intros Hlt. exfalso. apply (Qlt_not_le a b); assumption.
  - split; [| reflexivity]. intros _.
    apply Qnot_le_lt. intros Hba. apply Qle_bool_iff in Hba. congruence.
Qed.

Lemma Qtruncate_floor (x : Q) : (0 <= x)%Q -> Qtruncate x = Qfloor x.
Proof.
  destruct x as [n d]. unfold Qle, Qtruncate, Qfloor. simpl.
  intros Hn. apply Z.quot_div_nonneg; lia.
Qed.

Lemma clamped_range (t : Q) : (0 <= clamped t <= 100)%Q.
Proof.
  unfold clamped.
  destruct (Qlt_bool t 0) eqn:H0.
  - split; [apply Qle_refl | discriminate].
  - destruct (Qlt_bool 100 t) eqn:H100.
    + split; [discriminate | apply Qle_refl].
    + split.
      * apply Qnot_lt_le. intros H. apply Qlt_bool_iff in H. congruence.
      * apply Qnot_lt_le. intros H. apply Qlt_bool_iff in H. congruence.
Qed.

Lemma temperatureToData_clamped (t : Q) :
  temperatureToData t = Qfloor (clamped t * 256).
Proof.
  assert (H : temperatureToData t = Qtruncate (clamped t * 256)).
  { unfold temperatureToData, clamped.
    destruct (Qlt_bool t 0) eqn:H0; [reflexivity |].
    destruct (Qlt_bool 100 t); reflexivity. }
  rewrite H. apply Qtruncate_floor.
  apply Qmult_le_0_compat; [apply clamped_range | discriminate].
Qed.

Lemma temperatureToData_range (t : Q) : 0 <= temperatureToData t <= 25600.
Proof.
  rewrite temperatureToData_clamped.
  destruct (clamped_range t) as [Hlo Hhi].
  split.
  - change 0 with (Qfloor 0). apply Qfloor_resp_le.
    apply Qmult_le_0_compat; [assumption | discriminate].
  - change 25600 with (Qfloor (100 * 256)). apply Qfloor_resp_le.
    apply Qmult_le_compat_r; [assumption | discriminate].
Qed.

Lemma getFloat_small (r : Z) :
  0 <= getUInt r < 2 ^ 15 -> getFloat r = (getUInt r # 256)%Q.
Proof.
  intros Hr. unfold getFloat.
  change 32768 with (2 ^ 15).
  rewrite to_bool_land_pow2 by lia.
  rewrite (bits_above_pow2 (getUInt r) 15 15) by lia. reflexivity.
Qed.

(** X6. [temperatureToData] clamps its input to 0..100 and scales it by 256,
    rounding down: the result is in 0..25600, and decoding it with
    [getFloat] from a request built with it gives a value at most the
    clamped temperature and less than 1/256 below it. *)
Theorem temperature_round_trip (TSet : OpenThermMessageID) (t : Q) :
  0 <= temperatureToData t <= 25600
  /\ getUInt (buildSetBoilerTemperatureRequest TSet t) = temperatureToData t
  /\ (getFloat (buildSetBoilerTemperatureRequest TSet t) <= clamped t)%Q
  /\ (clamped t < getFloat (buildSetBoilerTemperatureRequest TSet t)
                  + (1 # 256))%Q.
Proof.
  pose proof (temperatureToData_range t) as Hrange.
  assert (HU : getUInt (buildSetBoilerTemperatureRequest TSet t)
               = temperatureToData t).
  { unfold buildSetBoilerTemperatureRequest.
    rewrite getUInt_of_request. apply Z.mod_small. lia. }
  split; [exact Hrange | split; [exact HU |]].
  rewrite getFloat_small by (rewrite HU; lia).
  rewrite HU, temperatureToData_clamped.
  set (x := (clamped t * 256)%Q).
  assert (Hc : (clamped t == x * (1 # 256))%Q).
  { unfold x. rewrite <- Qmult_assoc.
    setoid_replace (256 * (1 # 256))%Q with 1%Q by reflexivity.
    rewrite Qmult_1_r. reflexivity. }
  assert (Hf : ((Qfloor x # 256) == inject_Z (Qfloor x) * (1 # 256))%Q).
  { unfold Qeq, inject_Z. simpl. lia. }
  split.
  - rewrite Hc, Hf. apply Qmult_le_compat_r; [apply Qfloor_le | discriminate].
  - rewrite Hc, Hf.
    setoid_replace (inject_Z (Qfloor x) * (1 # 256) + (1 # 256))%Q
      with (inject_Z (Qfloor x + 1) * (1 # 256))%Q
      by (rewrite inject_Z_plus; ring).
    apply Qmult_lt_compat_r; [reflexivity | apply Qlt_floor].
Qed.

Example temperatureToData_examples :
  temperatureToData (85 # 2) = 10880 /\ temperatureToData (-3) = 0
  /\ temperatureToData 250 = 25600.
Proof. repeat split. Qed.

Lemma getUInt_range (r : Z) : 0 <= getUInt r < 2 ^ 16.
Proof.
  unfold getUInt. change 65535 with (Z.ones 16).
  rewrite Z.land_ones by lia. apply Z.mod_pos_bound. lia.
Qed.

(** X7. [getFloat] reads the payload as a signed 16-bit number of 256ths:
    payloads below 0x8000 are non-negative, the others are the payload minus
    65536, so the result is always in [-128, 128). *)
Theorem getFloat_signed (r : Z) :
  getFloat r = (signed16 (r mod 2 ^ 16) # 256)%Q
  /\ (-128 <= getFloat r)%Q /\ (getFloat r < 128)%Q.
Proof.
  pose proof (getUInt_range r) as Hu.
  assert (HU : getUInt r = r mod 2 ^ 16).
  { unfold getUInt. change 65535 with (Z.ones 16).
    apply Z.land_ones. lia. }
  assert (H : getFloat r = (signed16 (getUInt r) # 256)%Q).
  { unfold getFloat, signed16. change 32768 with (2 ^ 15).
    rewrite to_bool_land_pow2 by lia.
    destruct (Z.ltb_spec (getUInt r) (2 ^ 15)) as [Hlt | Hge].
    - rewrite (bits_above_pow2 (getUInt r) 15 15) by lia. reflexivity.
    - assert (Hbit : Z.testbit (getUInt r) 15 = true).
      { apply Z.testbit_true; [lia |].
        change (2 ^ 15) with 32768 in *. change (2 ^ 16) with 65536 in *.
        Z.div_mod_to_equations. lia. }
      rewrite Hbit. f_equal. change (2 ^ 16) with 65536. lia. }
  rewrite <- HU. split; [exact H |].
  rewrite H. unfold signed16, Qle, Qlt. cbn [Qnum Qden].
  change (2 ^ 15) with 32768 in *. change (2 ^ 16) with 65536 in *.
  destruct (Z.ltb_spec (getUInt r) 32768); lia.
Qed.

(** ** The transmitter *)

Lemma bitRead_bit (value bit : Z) : bitRead value bit = 0 \/ bitRead value bit = 1.
Proof.
  unfold bitRead.
  assert (H : Z.land (Z.shiftr value bit) 1 = Z.shiftr value bit mod 2)
    by (apply (Z.land_ones _ 1); lia).
  rewrite H.
  pose proof (Z.mod_pos_bound (Z.shiftr value bit) 2). lia.
Qed.

Lemma frame_bits_bit (frame b : Z) : In b (frame_bits frame) -> b = 0 \/ b = 1.
Proof.
  unfold frame_bits. intros Hin. apply in_map_iff in Hin.
  destruct Hin as [i [<- _]]. apply bitRead_bit.
Qed.

Lemma frame_bits_length (frame : Z) : length (frame_bits frame) = 32%nat.
Proof. reflexivity. Qed.

Lemma sendBit_writes (b : Z) st r rs ts k cb calls ws :
  b = 0 \/ b = 1 ->
  sendBit (to_bool b) (mkOpenTherm st r rs ts k cb calls ws) =
  mkOpenTherm st r rs ts k cb calls (ws ++ [1 - b; b]).
Proof.
  intros [-> | ->]; unfold sendBit, setActiveState, setIdleState, digitalWrite;
    cbn; rewrite <- app_assoc; reflexivity.
Qed.

Lemma sendBits_writes (request : Z) (idx : list nat) st r rs ts k cb calls ws :
  fold_left (fun o i => sendBit (to_bool (bitRead request (Z.of_nat i))) o)
            idx (mkOpenTherm st r rs ts k cb calls ws) =
  mkOpenTherm st r rs ts k cb calls
              (ws ++ flat_map (fun b => [1 - b; b])
                              (map (fun i => bitRead request (Z.of_nat i))
                                   idx)).
Proof.
  revert ws. induction idx as [| i idx IH]; intros ws.
  - cbn [fold_left map flat_map]. rewrite app_nil_r. reflexivity.
  - cbn [fold_left map flat_map].
    rewrite (sendBit_writes _ st r rs ts k cb calls ws
                            (bitRead_bit request (Z.of_nat i))).
    rewrite IH, <- app_assoc. reflexivity.
Qed.

Lemma sendRequestAync_ready (o : OpenTherm) (request now : Z) :
  status o = READY ->
  sendRequestAync request now o =
  (true,
   mkOpenTherm RESPONSE_WAITING 0 NONE now (responseBitIndex o)
               (processResponseCallback o) (callbackCalls o)
               (outPinWrites o
                  ++ flat_map (fun b => [1 - b; b])
                              (1 :: frame_bits request ++ [1])
                  ++ [HIGH])).
Proof.
  intros Hst.
  destruct o as [st r rs ts k cb calls ws]. cbn [status] in Hst. subst st.
  unfold sendRequestAync, isReady.
  cbn [status status_eqb negb responseBitIndex processResponseCallback
       callbackCalls outPinWrites].
  unfold set_status, set_response, set_responseStatus, sendBits.
  cbn [status response responseStatus responseTimestamp responseBitIndex
       processResponseCallback callbackCalls outPinWrites].
  change (to_bool HIGH) with (to_bool 1).
  rewrite (sendBit_writes 1) by (right; reflexivity).
  rewrite sendBits_writes.
  rewrite (sendBit_writes 1) by (right; reflexivity).
  unfold setIdleState, digitalWrite, set_responseTimestamp.
  cbn [status response responseStatus responseTimestamp responseBitIndex
       processResponseCallback callbackCalls outPinWrites].
  fold (frame_bits request).
  do 2 f_equal.
  cbn [flat_map]. rewrite flat_map_app. cbn [flat_map].
  rewrite <- !app_assoc. reflexivity.
Qed.

(** X8. An accepted send: from [READY], [sendRequestAync] returns [true],
    clears the previous response and outcome, records [now] and waits for
    the response. On the output pin it writes, for the start bit 1, the 32
    bits of the request from bit 31 down to bit 0 and the stop bit 1, the
    two half bits of each bit [b]: first the level [1 - b], then [b] (a 1 is
    active-then-idle, a 0 idle-then-active, active being [LOW]); then it
    leaves the line idle. *)
Theorem sendRequestAync_accepted (o : OpenTherm) (request now : Z) :
  status o = READY ->
  sendRequestAync request now o =
  (true,
   mkOpenTherm RESPONSE_WAITING 0 NONE now (responseBitIndex o)
               (processResponseCallback o) (callbackCalls o)
               (outPinWrites o
                  ++ flat_map (fun b => [1 - b; b])
                              (1 :: frame_bits request ++ [1])
                  ++ [HIGH])).
Proof. apply sendRequestAync_ready. Qed.

Lemma sendRequestAync_accepted_witness :
  fst (sendRequestAync 5 100 (begin true (OpenTherm_new 0))) = true.
Proof.
  rewrite (sendRequestAync_accepted (begin true (OpenTherm_new 0)) 5 100).
  - reflexivity.
  - reflexivity.
Defined.

(** ** The decoder rebuilds a frame from its edges *)

Lemma run_app (cs1 cs2 : list call) (o : OpenTherm) :
  run (cs1 ++ cs2) o = run cs2 (run cs1 o).
Proof. unfold run. apply fold_left_app. Qed.

Lemma sub32_offset (t d : Z) : 0 <= d < 2 ^ 32 -> sub32 (t + d) t = d.
Proof.
  intros Hd. unfold sub32, u32.
  replace (t + d - t) with d by lia. apply Z.mod_small. assumption.
Qed.

Lemma recv_bit_value (r b : Z) :
  b = 0 \/ b = 1 -> Z.lor (shl32 r 1) b = (2 * r + b) mod 2 ^ 32.
Proof.
  intros Hb. unfold shl32, u32. rewrite Z.shiftl_mul_pow2 by lia.
  change (2 ^ 1) with 2.
  set (x := (r * 2) mod 2 ^ 32).
  assert (Hx : x = (x / 2) * 2 ^ 1).
  { unfold x. change (2 ^ 32) with 4294967296. change (2 ^ 1) with 2.
    Z.div_mod_to_equations. lia. }
  rewrite Hx, Z.lor_comm, lor_shifted_add by lia.
  rewrite <- Hx. unfold x. change (2 ^ 32) with 4294967296.
  Z.div_mod_to_equations. lia.
Qed.

Lemma bits_value_cons (b : Z) (bits : list Z) (acc : Z) :
  bits_value acc (b :: bits) = bits_value (2 * acc + b) bits.
Proof. reflexivity. Qed.

Lemma bits_value_acc (bits : list Z) (acc : Z) :
  bits_value acc bits = acc * 2 ^ Z.of_nat (length bits) + bits_value 0 bits.
Proof.
  revert acc. induction bits as [| b bits IH]; intros acc.
  - unfold bits_value. simpl. lia.
  - rewrite !bits_value_cons.
    rewrite (IH (2 * acc + b)), (IH (2 * 0 + b)).
    change (length (b :: bits)) with (S (length bits)).
    rewrite Nat2Z.inj_succ, Z.pow_succ_r by lia. ring.
Qed.

Lemma recv_bits_value (bits : list Z) (r : Z) :
  (forall b, In b bits -> b = 0 \/ b = 1) ->
  fold_left (fun v b => Z.lor (shl32 v 1) b) bits r mod 2 ^ 32 =
  bits_value r bits mod 2 ^ 32.
Proof.
  revert r. induction bits as [| b bits IH]; intros r Hbits.
  - reflexivity.
  - simpl fold_left. rewrite IH by (intros; apply Hbits; right; assumption).
    rewrite recv_bit_value by (apply Hbits; left; reflexivity).
    rewrite bits_value_cons.
    rewrite (bits_value_acc bits ((2 * r + b) mod 2 ^ 32)),
      (bits_value_acc bits (2 * r + b)).
    rewrite Z.add_mod, Z.mul_mod, Z.mod_mod by lia.
    rewrite <- Z.mul_mod, <- Z.add_mod by lia. reflexivity.
Qed.

Lemma frame_bits_value_upto (frame : Z) (n : nat) :
  bits_value 0 (map (fun i => bitRead frame (Z.of_nat i)) (rev (seq 0 n)))
  = frame mod 2 ^ Z.of_nat n.
Proof.
  induction n as [| n IH].
  - unfold bits_value. simpl. rewrite Z.mod_1_r. reflexivity.
  - rewrite seq_S, rev_app_distr. simpl rev. simpl app. simpl map.
    rewrite bits_value_cons, bits_value_acc, IH.
    rewrite length_map, length_rev, length_seq.
    rewrite Nat2Z.inj_succ, Z.pow_succ_r by lia.
    rewrite (Z.mul_comm 2 (2 ^ Z.of_nat n)), Z.rem_mul_r by lia.
    unfold bitRead.
    assert (H : Z.land (Z.shiftr frame (Z.of_nat n)) 1
                = Z.shiftr frame (Z.of_nat n) mod 2)
      by (apply (Z.land_ones _ 1); lia).
    rewrite H, Z.shiftr_div_pow2 by lia. ring.
Qed.

Lemma frame_bits_value (frame : Z) :
  is_frame frame -> bits_value 0 (frame_bits frame) = frame.
Proof.
  intros Hf. unfold frame_bits. rewrite (frame_bits_value_upto frame 32).
  apply Z.mod_small. exact Hf.
Qed.

Lemma recv_fold_range (bits : list Z) (r : Z) :
  (forall b, In b bits -> b = 0 \/ b = 1) ->
  bits <> [] ->
  0 <= fold_left (fun v b => Z.lor (shl32 v 1) b) bits r < 2 ^ 32.
Proof.
  revert r. induction bits as [| b bits IH]; intros r Hbits Hne;
    [contradiction |].
  simpl fold_left.
  destruct bits as [| b' bits'].
  - simpl. rewrite recv_bit_value by (apply Hbits; left; reflexivity).
    apply Z.mod_pos_bound. lia.
  - apply IH; [intros; apply Hbits; right; assumption | discriminate].
Qed.

Lemma edge_receiving_early r rs ts k cb calls ws newTs level :
  sub32 newTs ts <= 750 ->
  handleInterrupt newTs level
    (mkOpenTherm RESPONSE_RECEIVING r rs ts k cb calls ws) =
  mkOpenTherm RESPONSE_RECEIVING r rs ts k cb calls ws.
Proof.
  intros Hle. unfold handleInterrupt. simpl.
  destruct (Z.gtb_spec (sub32 newTs ts) 750); [lia | reflexivity].
Qed.

Lemma edge_receiving_bit r rs ts k cb calls ws newTs b :
  sub32 newTs ts > 750 -> k < 32 -> b = 0 \/ b = 1 ->
  handleInterrupt newTs (1 - b)
    (mkOpenTherm RESPONSE_RECEIVING r rs ts k cb calls ws) =
  mkOpenTherm RESPONSE_RECEIVING (Z.lor (shl32 r 1) b) rs newTs (k + 1)
              cb calls ws.
Proof.
  intros Hgt Hk Hb. unfold handleInterrupt. simpl.
  destruct (Z.gtb_spec (sub32 newTs ts) 750); [| lia].
  destruct (Z.ltb_spec k 32); [| lia].
  destruct Hb as [-> | ->]; reflexivity.
Qed.

Lemma edge_receiving_stop r rs ts k cb calls ws newTs level :
  sub32 newTs ts > 750 -> 32 <= k ->
  handleInterrupt newTs level
    (mkOpenTherm RESPONSE_RECEIVING r rs ts k cb calls ws) =
  mkOpenTherm RESPONSE_READY r rs newTs k cb calls ws.
Proof.
  intros Hgt Hk. unfold handleInterrupt. simpl.
  destruct (Z.gtb_spec (sub32 newTs ts) 750); [| lia].
  destruct (Z.ltb_spec k 32); [lia | reflexivity].
Qed.

Lemma run_edge (newTs level : Z) (o : OpenTherm) :
  run [CallEdge newTs level] o = handleInterrupt newTs level o.
Proof. reflexivity. Qed.

(** One data bit: the edge at the bit boundary, if any, is ignored and the
    edge in the middle of the bit shifts the bit in. *)
Lemma receive_bit r rs ts k cb calls ws prev b rest :
  b = 0 \/ b = 1 -> k < 32 ->
  run (line_edges (ts + 500) prev (b :: 1 - b :: rest))
      (mkOpenTherm RESPONSE_RECEIVING r rs ts k cb calls ws) =
  run (line_edges (ts + 1000 + 500) (1 - b) rest)
      (mkOpenTherm RESPONSE_RECEIVING (Z.lor (shl32 r 1) b) rs (ts + 1000)
                   (k + 1) cb calls ws).
Proof.
  intros Hb Hk. cbn [line_edges]. rewrite !run_app.
  assert (Hboundary :
    run (if b =? prev then [] else [CallEdge (ts + 500) b])
        (mkOpenTherm RESPONSE_RECEIVING r rs ts k cb calls ws) =
    mkOpenTherm RESPONSE_RECEIVING r rs ts k cb calls ws).
  { destruct (b =? prev); [reflexivity |].
    rewrite run_edge. apply edge_receiving_early.
    rewrite sub32_offset by lia. lia. }
  rewrite Hboundary.
  replace (1 - b =? b) with false by (destruct Hb as [-> | ->]; reflexivity).
  replace (ts + 500 + 500) with (ts + 1000) by lia.
  rewrite run_edge.
  rewrite edge_receiving_bit; try assumption.
  - reflexivity.
  - rewrite sub32_offset by lia. lia.
Qed.

Lemma receive_bits (bits : list Z) :
  forall r rs ts k cb calls ws prev rest,
    (forall b, In b bits -> b = 0 \/ b = 1) ->
    k + Z.of_nat (length bits) <= 32 ->
    exists prev',
      run (line_edges (ts + 500) prev
             (flat_map (fun b => [b; 1 - b]) bits ++ rest))
          (mkOpenTherm RESPONSE_RECEIVING r rs ts k cb calls ws) =
      run (line_edges (ts + 1000 * Z.of_nat (length bits) + 500) prev' rest)
          (mkOpenTherm RESPONSE_RECEIVING
             (fold_left (fun v b => Z.lor (shl32 v 1) b) bits r) rs
             (ts + 1000 * Z.of_nat (length bits))
             (k + Z.of_nat (length bits)) cb calls ws).
Proof.
  induction bits as [| b bits IH]; intros r rs ts k cb calls ws prev rest
                                          Hbits Hlen.
  - exists prev. simpl.
    rewrite !Z.add_0_r. reflexivity.
  - change (length (b :: bits)) with (S (length bits)) in *.
    rewrite Nat2Z.inj_succ in *.
    cbn [flat_map app].
    rewrite receive_bit by (try (apply Hbits; left; reflexivity); lia).
    destruct (IH (Z.lor (shl32 r 1) b) rs (ts + 1000) (k + 1) cb calls ws
                 (1 - b) rest) as [prev' Hrun].
    + intros; apply Hbits; right; assumption.
    + lia.
    + exists prev'. rewrite Hrun. simpl fold_left.
      replace (ts + 1000 + 1000 * Z.of_nat (length bits))
        with (ts + 1000 * Z.succ (Z.of_nat (length bits))) by lia.
      replace (k + 1 + Z.of_nat (length bits))
        with (k + Z.succ (Z.of_nat (length bits))) by lia.
      reflexivity.
Qed.

(** The start bit arms the decoder, the stop bit ends the frame. *)
Lemma receive_start r rs ts k cb calls ws t0 rest :
  run (line_edges t0 LOW (1 :: 1 - 1 :: rest))
      (mkOpenTherm RESPONSE_WAITING r rs ts k cb calls ws) =
  run (line_edges (t0 + 500 + 500) (1 - 1) rest)
      (mkOpenTherm RESPONSE_RECEIVING r rs (t0 + 500) 0 cb calls ws).
Proof.
  cbn [line_edges]. change (1 =? LOW) with false. change (1 - 1 =? 1) with false.
  rewrite !run_app, !run_edge.
  unfold handleInterrupt at 2. simpl.
  unfold handleInterrupt. simpl.
  rewrite sub32_offset by lia. simpl. reflexivity.
Qed.

Lemma receive_stop r rs ts cb calls ws prev :
  run (line_edges (ts + 500) prev [1; 1 - 1])
      (mkOpenTherm RESPONSE_RECEIVING r rs ts 32 cb calls ws) =
  mkOpenTherm RESPONSE_READY r rs (ts + 1000) 32 cb calls ws.
Proof.
  cbn [line_edges]. change (1 - 1 =? 1) with false.
  rewrite !run_app.
  assert (Hboundary :
    run (if 1 =? prev then [] else [CallEdge (ts + 500) 1])
        (mkOpenTherm RESPONSE_RECEIVING r rs ts 32 cb calls ws) =
    mkOpenTherm RESPONSE_RECEIVING r rs ts 32 cb calls ws).
  { destruct (1 =? prev); [reflexivity |].
    rewrite run_edge. apply edge_receiving_early.
    rewrite sub32_offset by lia. lia. }
  rewrite Hboundary.
  replace (ts + 500 + 500) with (ts + 1000) by lia.
  change (line_edges (ts + 1000 + 500) (1 - 1) []) with (@nil call).
  rewrite run_edge. unfold run at 1. simpl fold_left.
  apply edge_receiving_stop; [| lia].
  rewrite sub32_offset by lia. lia.
Qed.

Lemma run_slave_response (o : OpenTherm) (t0 f : Z) :
  status o = RESPONSE_WAITING -> is_frame f ->
  run (slave_response t0 f) o =
  mkOpenTherm RESPONSE_READY f (responseStatus o) (t0 + 33500) 32
              (processResponseCallback o) (callbackCalls o) (outPinWrites o).
Proof.
  intros Hst Hf.
  destruct o as [st r rs ts k cb calls ws]. simpl in Hst. subst st.
  cbn [responseStatus processResponseCallback callbackCalls outPinWrites].
  unfold slave_response, half_bit_levels.
  cbn [flat_map app]. rewrite flat_map_app.
  rewrite receive_start.
  destruct (receive_bits (frame_bits f) r rs (t0 + 500) 0 cb calls ws (1 - 1)
              (flat_map (fun b => [b; 1 - b]) [1]))
    as [prev Hrun].
  - apply frame_bits_bit.
  - rewrite frame_bits_length. lia.
  - rewrite Hrun, frame_bits_length.
    change (0 + Z.of_nat 32) with 32.
    replace (t0 + 500 + 1000 * Z.of_nat 32) with (t0 + 32500) by lia.
    cbn [flat_map app].
    rewrite receive_stop.
    replace (t0 + 32500 + 1000) with (t0 + 33500) by lia.
    f_equal.
    assert (Hbits : forall b, In b (frame_bits f) -> b = 0 \/ b = 1)
      by apply frame_bits_bit.
    assert (Hne : frame_bits f <> []) by discriminate.
    pose proof (recv_fold_range (frame_bits f) r Hbits Hne) as Hrange.
    rewrite <- (Z.mod_small _ _ Hrange).
    rewrite recv_bits_value by assumption.
    rewrite bits_value_acc, frame_bits_length, frame_bits_value by assumption.
    change (Z.of_nat 32) with 32.
    rewrite Z.add_comm, Z.mod_add by lia.
    apply Z.mod_small. exact Hf.
Qed.

(** X9. Round trip of the line code: for every 32-bit frame [f], the edges
    of a response carrying [f] in the encoding of [sendBit] (start bit, 32
    bits from bit 31 down, stop bit, 500 microseconds per half bit) take a
    session that waits for a response to [RESPONSE_READY] with
    [response = f] and 32 bits counted, whatever [response] held before;
    the timestamp is that of the last edge and nothing else changes. *)
Theorem decode_round_trip (o : OpenTherm) (t0 f : Z) :
  status o = RESPONSE_WAITING -> is_frame f ->
  run (slave_response t0 f) o =
  mkOpenTherm RESPONSE_READY f (responseStatus o) (t0 + 33500) 32
              (processResponseCallback o) (callbackCalls o) (outPinWrites o).
Proof. apply run_slave_response. Qed.

Lemma decode_round_trip_witness :
  response
    (run (slave_response 20000 3221236352)
         (mkOpenTherm RESPONSE_WAITING 0 NONE 0 0 true [] [])) = 3221236352.
Proof.
  rewrite (decode_round_trip
             (mkOpenTherm RESPONSE_WAITING 0 NONE 0 0 true [] [])
             20000 3221236352).
  - reflexivity.
  - reflexivity.
  - unfold is_frame. lia.
Defined.

(** ** Complete exchanges *)

Lemma run_cons (c : call) (cs : list call) (o : OpenTherm) :
  run (c :: cs) o = run cs (step c o).
Proof. reflexivity. Qed.

Lemma process_frame_ready f rs ts k cb calls ws newTs :
  sub32 newTs ts <= 800000 ->
  process newTs (mkOpenTherm RESPONSE_READY f rs ts k cb calls ws) =
  mkOpenTherm DELAY f (frame_outcome f) ts k cb
              (if cb then calls ++ [(f, frame_outcome f)] else calls) ws.
Proof.
  intros Hle. unfold process. cbn [status responseTimestamp status_eqb negb].
  destruct (Z.gtb_spec (sub32 newTs ts) 800000); [lia |].
  cbn [andb]. unfold notify, set_responseStatus, set_status, frame_outcome.
  cbn [status response responseStatus responseTimestamp responseBitIndex
       processResponseCallback callbackCalls outPinWrites].
  destruct cb; reflexivity.
Qed.

Lemma process_frame_invalid r rs ts k cb calls ws newTs :
  sub32 newTs ts <= 800000 ->
  process newTs (mkOpenTherm RESPONSE_INVALID r rs ts k cb calls ws) =
  mkOpenTherm DELAY r INVALID ts k cb
              (if cb then calls ++ [(r, INVALID)] else calls) ws.
Proof.
  intros Hle. unfold process. cbn [status responseTimestamp status_eqb negb].
  destruct (Z.gtb_spec (sub32 newTs ts) 800000); [lia |].
  cbn [andb]. unfold notify, set_responseStatus, set_status.
  cbn [status response responseStatus responseTimestamp responseBitIndex
       processResponseCallback callbackCalls outPinWrites].
  destruct cb; reflexivity.
Qed.

Lemma process_quiet_over r rs ts k cb calls ws newTs :
  100000 < sub32 newTs ts <= 800000 ->
  process newTs (mkOpenTherm DELAY r rs ts k cb calls ws) =
  mkOpenTherm READY r rs ts k cb calls ws.
Proof.
  intros Hle. unfold process. cbn [status responseTimestamp status_eqb negb].
  destruct (Z.gtb_spec (sub32 newTs ts) 800000); [lia |].
  destruct (Z.gtb_spec (sub32 newTs ts) 100000); [| lia].
  reflexivity.
Qed.

Lemma process_waiting r rs ts k cb calls ws newTs :
  sub32 newTs ts <= 800000 ->
  process newTs (mkOpenTherm RESPONSE_WAITING r rs ts k cb calls ws) =
  mkOpenTherm RESPONSE_WAITING r rs ts k cb calls ws.
Proof.
  intros Hle. unfold process. cbn [status responseTimestamp status_eqb negb].
  destruct (Z.gtb_spec (sub32 newTs ts) 800000); [lia | reflexivity].
Qed.

(** X10. An exchange polled in time is reported exactly once. From [READY],
    a request is sent, the slave answers with the 32-bit frame [f], and
    [process] runs at most 800,000 microseconds after the last edge: the
    session is in [DELAY] with [response = f], the outcome is [SUCCESS] when
    [isValidResponse f] and [INVALID] otherwise, and the callback, if
    registered, has been called once with them. A further [process] more
    than 100,000 and at most 800,000 microseconds after the last edge
    returns the session to [READY] without any other call. *)
Theorem exchange_reported_once (o : OpenTherm) (request now t0 f t1 t2 : Z) :
  status o = READY -> is_frame f ->
  sub32 t1 (t0 + 33500) <= 800000 ->
  100000 < sub32 t2 (t0 + 33500) <= 800000 ->
  let o1 := run (CallSend request now :: slave_response t0 f
                   ++ [CallProcess t1]) o in
  status o1 = DELAY
  /\ response o1 = f
  /\ responseStatus o1 = frame_outcome f
  /\ callbackCalls o1 = notified o f (frame_outcome f)
  /\ process t2 o1 =
     mkOpenTherm READY f (frame_outcome f) (t0 + 33500) 32
                 (processResponseCallback o) (notified o f (frame_outcome f))
                 (outPinWrites o1).
Proof.
  intros Hst Hf Ht1 Ht2 o1.
  assert (Ho1 : o1 =
    mkOpenTherm DELAY f (frame_outcome f) (t0 + 33500) 32
                (processResponseCallback o) (notified o f (frame_outcome f))
                (outPinWrites o1)).
  { unfold o1 at 1. rewrite run_cons. cbn [step].
    rewrite (sendRequestAync_ready o request now Hst). cbn [snd].
    rewrite run_app, run_slave_response by (assumption || reflexivity).
    cbn [responseStatus processResponseCallback callbackCalls outPinWrites].
    rewrite run_cons. cbn [step]. unfold run at 1. cbn [fold_left].
    rewrite process_frame_ready by assumption.
    unfold notified. f_equal.
    unfold o1. rewrite run_cons. cbn [step].
    rewrite (sendRequestAync_ready o request now Hst). cbn [snd].
    rewrite run_app, run_slave_response by (assumption || reflexivity).
    cbn [responseStatus processResponseCallback callbackCalls outPinWrites].
    rewrite run_cons. cbn [step]. unfold run at 1. cbn [fold_left].
    rewrite process_frame_ready by assumption. reflexivity. }
  rewrite Ho1. cbn [status response responseStatus callbackCalls outPinWrites].
  repeat split.
  apply process_quiet_over. assumption.
Qed.

Lemma exchange_reported_once_witness :
  callbackCalls
    (run (CallSend 0 0 :: slave_response 20000 3221236352
            ++ [CallProcess 60000]) (begin true (OpenTherm_new 0)))
  = [(3221236352, SUCCESS)].
Proof.
  apply (exchange_reported_once (begin true (OpenTherm_new 0))
           0 0 20000 3221236352 60000 200000).
  - reflexivity.
  - unfold is_frame. lia.
  - vm_compute. discriminate.
  - split; vm_compute; [reflexivity | discriminate].
Defined.

(** ** The blocking calls *)

Lemma handleInterrupt_ready (o : OpenTherm) (newTs level : Z) :
  status o = READY -> handleInterrupt newTs level o = o.
Proof.
  intros Hst. unfold handleInterrupt, isReady. rewrite Hst. reflexivity.
Qed.

Lemma run_edges_ready (edges : list (Z * Z)) (o : OpenTherm) :
  status o = READY -> run_edges edges o = o.
Proof.
  intros Hst. unfold run_edges.
  induction edges as [| e edges IH]; [reflexivity |].
  cbn [fold_left]. rewrite handleInterrupt_ready by assumption. exact IH.
Qed.

Lemma wait_ready_ready (polls : list poll) (o : OpenTherm) :
  status o = READY -> wait_ready polls o = Some o.
Proof.
  intros Hst. destruct polls; cbn [wait_ready]; unfold isReady;
    rewrite Hst; reflexivity.
Qed.

Lemma wait_ready_step (p : poll) (polls : list poll) (o : OpenTherm) :
  status o <> READY ->
  wait_ready (p :: polls) o =
  wait_ready polls (run_edges (poll_edges p) (process (poll_micros p) o)).
Proof.
  intros Hst. cbn [wait_ready]. rewrite isReady_false by assumption.
  reflexivity.
Qed.

Lemma wait_ready_silent (early : list poll) (polls : list poll)
      r rs ts k cb calls ws :
  Forall (fun p => silent p /\ sub32 (poll_micros p) ts <= 800000) early ->
  wait_ready (early ++ polls)
             (mkOpenTherm RESPONSE_WAITING r rs ts k cb calls ws) =
  wait_ready polls (mkOpenTherm RESPONSE_WAITING r rs ts k cb calls ws).
Proof.
  induction early as [| p early IH]; intros Hearly; [reflexivity |].
  inversion Hearly as [| p' early' [Hsilent Htime] Hrest]; subst.
  cbn [app]. rewrite wait_ready_step by (cbn; discriminate).
  rewrite process_waiting by assumption.
  unfold silent in Hsilent. rewrite Hsilent. cbn [run_edges fold_left].
  unfold run_edges. cbn [fold_left]. apply IH. assumption.
Qed.

(** X11. A silent line: after an accepted send, as long as no edge arrives
    and [process] runs within 800,000 microseconds of the end of the
    transmission, [sendRequest] keeps polling; the first [process] after
    that deadline reports [TIMEOUT], once, with the zero frame, and
    [sendRequest] returns 0 with the session [READY]. *)
Theorem sendRequest_silent_timeout (o : OpenTherm) (request now : Z)
        (early : list poll) (late : poll) (rest : list poll) :
  status o = READY ->
  Forall (fun p => silent p /\ sub32 (poll_micros p) now <= 800000) early ->
  sub32 (poll_micros late) now > 800000 ->
  exists o',
    sendRequest request now (early ++ late :: rest) o = Some (0, o')
    /\ status o' = READY
    /\ responseStatus o' = TIMEOUT
    /\ callbackCalls o' = notified o 0 TIMEOUT.
Proof.
  intros Hst Hearly Hlate.
  unfold sendRequest.
  rewrite (sendRequestAync_ready o request now Hst). cbn [negb].
  rewrite wait_ready_silent by assumption.
  rewrite wait_ready_step by (cbn; discriminate).
  rewrite process_timeout by (cbn; (discriminate || assumption)).
  rewrite run_edges_ready by reflexivity.
  rewrite wait_ready_ready by reflexivity.
  eexists. split; [reflexivity |].
  unfold timed_out, notified. cbn. repeat split.
Qed.

Lemma sendRequest_silent_timeout_witness :
  exists o',
    sendRequest 0 0 [mkPoll 1000 []; mkPoll 500000 []; mkPoll 900000 []]
                (begin true (OpenTherm_new 0)) = Some (0, o')
    /\ status o' = READY
    /\ responseStatus o' = TIMEOUT
    /\ callbackCalls o' = [(0, TIMEOUT)].
Proof.
  apply (sendRequest_silent_timeout (begin true (OpenTherm_new 0)) 0 0
           [mkPoll 1000 []; mkPoll 500000 []] (mkPoll 900000 []) []).
  - reflexivity.
  - repeat constructor; vm_compute; discriminate.
  - vm_compute. reflexivity.
Defined.






(** ** The basic requests *)

Lemma isValidResponse_0 : isValidResponse 0 = false.
Proof. reflexivity. Qed.

(** X13. The basic requests on a busy session: when the session is not
    [READY], [setBoilerStatus] returns 0, [setBoilerTemperature] returns
    [false] and [getBoilerTemperature] returns 0, at once and without
    changing the object. *)
Theorem basic_requests_rejected (Status TSet Tboiler : OpenThermMessageID)
        (o : OpenTherm) (now : Z) (polls : list poll) :
  status o <> READY ->
  (forall ch dhw cool otc ch2,
      setBoilerStatus Status ch dhw cool otc ch2 now polls o = Some (0, o))
  /\ (forall t, setBoilerTemperature TSet t now polls o = Some (false, o))
  /\ getBoilerTemperature Tboiler now polls o = Some (0%Q, o).
Proof.
  intros Hst.
  assert (Hsend : forall request, sendRequest request now polls o = Some (0, o)).
  { intros request. unfold sendRequest.
    rewrite (sendRequestAync_not_ready o request now Hst). reflexivity. }
  split; [| split].
  - intros. unfold setBoilerStatus. apply Hsend.
  - intros t. unfold setBoilerTemperature. rewrite Hsend. reflexivity.
  - unfold getBoilerTemperature. rewrite Hsend. reflexivity.
Qed.

Lemma basic_requests_rejected_witness :
  getBoilerTemperature 25 0 []
    (mkOpenTherm DELAY 3221236352 SUCCESS 53500 32 true [] []) =
  Some (0%Q, mkOpenTherm DELAY 3221236352 SUCCESS 53500 32 true [] []).
Proof.
  apply (basic_requests_rejected 0 1 25
           (mkOpenTherm DELAY 3221236352 SUCCESS 53500 32 true [] []) 0 []).
  cbn. discriminate.
Defined.



(** ** What the decoder and the controller leave alone *)

(** X15. Stray edges: in [NOT_INITIALIZED], [READY], [DELAY],
    [REQUEST_SENDING], [RESPONSE_READY] and [RESPONSE_INVALID]
    [handleInterrupt] changes nothing; in every state it leaves the outcome,
    the callback and its recorded calls, and the output pin untouched. *)
Theorem handleInterrupt_untouched (o : OpenTherm) (newTs level : Z) :
  (status o <> RESPONSE_WAITING -> status o <> RESPONSE_START_BIT ->
   status o <> RESPONSE_RECEIVING -> handleInterrupt newTs level o = o)
  /\ responseStatus (handleInterrupt newTs level o) = responseStatus o
  /\ processResponseCallback (handleInterrupt newTs level o)
     = processResponseCallback o
  /\ callbackCalls (handleInterrupt newTs level o) = callbackCalls o
  /\ outPinWrites (handleInterrupt newTs level o) = outPinWrites o.
Proof.
  split.
  - intros H1 H2 H3. unfold handleInterrupt, isReady.
    destruct (status o); try contradiction; reflexivity.
  - unfold handleInterrupt.
    repeat match goal with
           | |- context [if ?b then _ else _] => destruct b
           end; repeat split.
Qed.

Lemma handleInterrupt_untouched_witness :
  handleInterrupt 1000 HIGH (mkOpenTherm DELAY 5 SUCCESS 900 32 true [] [])
  = mkOpenTherm DELAY 5 SUCCESS 900 32 true [] [].
Proof.
  apply (handleInterrupt_untouched
           (mkOpenTherm DELAY 5 SUCCESS 900 32 true [] []) 1000 HIGH);
    cbn; discriminate.
Defined.

Lemma process_preserves (o : OpenTherm) (newTs : Z) :
  response (process newTs o) = response o
  /\ responseTimestamp (process newTs o) = responseTimestamp o
  /\ responseBitIndex (process newTs o) = responseBitIndex o
  /\ processResponseCallback (process newTs o) = processResponseCallback o
  /\ outPinWrites (process newTs o) = outPinWrites o
  /\ (status (process newTs o) = status o
      \/ status (process newTs o) = READY
      \/ status (process newTs o) = DELAY)
  /\ (callbackCalls (process newTs o) = callbackCalls o
      \/ callbackCalls (process newTs o) =
         callbackCalls o ++ [(response o, responseStatus (process newTs o))]).
Proof.
  destruct o as [st r rs ts k cb calls ws].
  unfold process, notify, set_responseStatus, set_status.
  cbn [status response responseStatus responseTimestamp responseBitIndex
       processResponseCallback callbackCalls outPinWrites].
  destruct st, cb; cbn [status_eqb negb andb];
    repeat match goal with
           | |- context [if ?b then _ else _] => destruct b
           end;
    cbn [status response responseStatus responseTimestamp responseBitIndex
         processResponseCallback callbackCalls outPinWrites];
    repeat split; auto.
Qed.

(** X16. [process] never changes the response, the timestamp, the bit
    counter, the callback or the output pin; it leaves the state as it is or
    moves it to [READY] or [DELAY]; and it calls the callback at most once,
    with the response and the outcome it has just set. *)
Theorem process_untouched (o : OpenTherm) (newTs : Z) :
  response (process newTs o) = response o
  /\ responseTimestamp (process newTs o) = responseTimestamp o
  /\ responseBitIndex (process newTs o) = responseBitIndex o
  /\ processResponseCallback (process newTs o) = processResponseCallback o
  /\ outPinWrites (process newTs o) = outPinWrites o
  /\ (status (process newTs o) = status o
      \/ status (process newTs o) = READY
      \/ status (process newTs o) = DELAY)
  /\ (callbackCalls (process newTs o) = callbackCalls o
      \/ callbackCalls (process newTs o) =
         callbackCalls o ++ [(response o, responseStatus (process newTs o))]).
Proof. apply process_preserves. Qed.

(** ** Invariants of a run *)

Lemma step_bit_count_ok (c : call) (o : OpenTherm) :
  bit_count_ok o -> bit_count_ok (step c o).
Proof.
  destruct o as [st r rs ts k cb calls ws].
  unfold bit_count_ok.
  cbn [status responseBitIndex]. intros [Hrecv Hready].
  destruct c as [request now | newTs level | newTs]; cbn [step].
  - destruct st;
      try (rewrite sendRequestAync_not_ready by (cbn; discriminate);
           cbn [snd status responseBitIndex]; split; assumption).
    rewrite sendRequestAync_ready by reflexivity.
    cbn [snd status]. split; discriminate.
  - unfold handleInterrupt, isReady. cbn [status].
    destruct st; cbn [status_eqb]; try (split; assumption);
      unfold set_responseBitIndex, set_responseTimestamp, set_status,
        set_response;
      cbn [status response responseStatus responseTimestamp responseBitIndex
           processResponseCallback callbackCalls outPinWrites];
      repeat match goal with
             | |- context [if ?b then _ else _] => destruct b eqn:?
             end;
      cbn [status responseBitIndex];
      (split; intros Hs; try discriminate Hs;
       repeat match goal with
              | H : (_ <? _) = true |- _ => apply Z.ltb_lt in H
              | H : (_ <? _) = false |- _ => apply Z.ltb_ge in H
              | H : ?a = ?a -> _ |- _ => specialize (H eq_refl)
              end; lia).
  - pose proof (process_preserves
                  (mkOpenTherm st r rs ts k cb calls ws) newTs)
      as [_ [_ [Hk [_ [_ [Hstat _]]]]]].
    rewrite Hk. cbn [status responseBitIndex] in *.
    destruct Hstat as [-> | [-> | ->]];
      (split; [assumption || discriminate | assumption || discriminate]).
Qed.

Lemma run_invariant (P : OpenTherm -> Prop) :
  (forall c o, P o -> P (step c o)) ->
  forall cs o, P o -> P (run cs o).
Proof.
  intros Hstep cs. induction cs as [| c cs IH]; intros o Ho; [exact Ho |].
  rewrite run_cons. apply IH, Hstep, Ho.
Qed.

(** X17. Bit counting: in every run of sends, edges and polls that starts
    outside [RESPONSE_RECEIVING] and [RESPONSE_READY], the bit counter is
    between 0 and 32 whenever the session is receiving, and a frame is
    [RESPONSE_READY] only when exactly 32 bits were shifted in. *)
Theorem ready_after_32_bits (cs : list call) (o : OpenTherm) :
  status o <> RESPONSE_RECEIVING -> status o <> RESPONSE_READY ->
  (status (run cs o) = RESPONSE_RECEIVING ->
   0 <= responseBitIndex (run cs o) <= 32)
  /\ (status (run cs o) = RESPONSE_READY -> responseBitIndex (run cs o) = 32).
Proof.
  intros Hrecv Hready.
  apply (run_invariant bit_count_ok step_bit_count_ok).
  split; intros Hst; contradiction.
Qed.

Lemma ready_after_32_bits_witness :
  responseBitIndex
    (run (CallSend 0 0 :: slave_response 20000 3221236352)
         (begin true (OpenTherm_new 7))) = 32.
Proof.
  apply (ready_after_32_bits
           (CallSend 0 0 :: slave_response 20000 3221236352)
           (begin true (OpenTherm_new 7))).
  - cbn. discriminate.
  - cbn. discriminate.
  - vm_compute. reflexivity.
Defined.

Lemma step_response_frame (c : call) (o : OpenTherm) :
  is_frame (response o) -> is_frame (response (step c o)).
Proof.
  intros Hf. destruct c as [request now | newTs level | newTs]; cbn [step].
  - destruct (status_eqb (status o) READY) eqn:Hst.
    + apply status_eqb_eq in Hst.
      rewrite sendRequestAync_ready by assumption. cbn. unfold is_frame. lia.
    + rewrite sendRequestAync_not_ready; [exact Hf |].
      intros Heq. apply status_eqb_eq in Heq. congruence.
  - destruct o as [st r rs ts k cb calls ws]. cbn [response] in Hf.
    unfold handleInterrupt, isReady. cbn [status].
    destruct st; cbn [status_eqb]; try exact Hf;
      unfold set_responseBitIndex, set_responseTimestamp, set_status,
        set_response;
      cbn [status response responseStatus responseTimestamp responseBitIndex
           processResponseCallback callbackCalls outPinWrites];
      repeat match goal with
             | |- context [if ?b then _ else _] => destruct b eqn:?
             end;
      cbn [response]; try exact Hf.
    rewrite recv_bit_value by (destruct (level =? 0); auto).
    apply Z.mod_pos_bound. lia.
  - destruct (process_preserves o newTs) as [-> _]. exact Hf.
Qed.

(** X18. The response stays a 32-bit value: in every run that starts with a
    response in [0, 2^32), the accumulated response is in that range after
    every send, edge and poll, although [handleInterrupt] shifts it left at
    each bit. *)
Theorem response_stays_frame (cs : list call) (o : OpenTherm) :
  is_frame (response o) -> is_frame (response (run cs o)).
Proof.
  apply (run_invariant (fun o => is_frame (response o)) step_response_frame).
Qed.

Lemma response_stays_frame_witness :
  is_frame
    (response (run [CallEdge 2000 LOW]
                   (mkOpenTherm RESPONSE_RECEIVING 4294967295 NONE 1000 3
                                true [] []))).
Proof.
  apply (response_stays_frame [CallEdge 2000 LOW]
           (mkOpenTherm RESPONSE_RECEIVING 4294967295 NONE 1000 3
                        true [] [])).
  unfold is_frame. cbn. lia.
Defined.

Lemma process_calls_sound (o : OpenTherm) (newTs : Z) :
  Forall sound_call (callbackCalls o) ->
  Forall sound_call (callbackCalls (process newTs o)).
Proof.
  intros Hcalls.
  destruct o as [st r rs ts k cb calls ws]. cbn [callbackCalls] in Hcalls.
  assert (Hadd : forall s,
             s <> NONE -> (s = SUCCESS -> isValidResponse r = true) ->
             Forall sound_call (calls ++ [(r, s)])).
  { intros s Hs Hvalid. apply Forall_app. split; [exact Hcalls |].
    constructor; [| constructor]. split; assumption. }
  unfold process, notify, set_responseStatus, set_status.
  cbn [status response responseStatus responseTimestamp responseBitIndex
       processResponseCallback callbackCalls outPinWrites].
  destruct st, cb; cbn [status_eqb negb andb];
    repeat match goal with
           | |- context [if ?b then _ else _] => destruct b eqn:?
           end;
    cbn [callbackCalls]; try exact Hcalls;
    apply Hadd; (discriminate || auto).
Qed.

Lemma step_calls_sound (c : call) (o : OpenTherm) :
  Forall sound_call (callbackCalls o) ->
  Forall sound_call (callbackCalls (step c o)).
Proof.
  intros Hcalls. destruct c as [request now | newTs level | newTs]; cbn [step].
  - destruct (status_eqb (status o) READY) eqn:Hst.
    + apply status_eqb_eq in Hst.
      rewrite sendRequestAync_ready by assumption. exact Hcalls.
    + rewrite sendRequestAync_not_ready; [exact Hcalls |].
      intros Heq. apply status_eqb_eq in Heq. congruence.
  - rewrite handleInterrupt_callbackCalls. exact Hcalls.
  - apply process_calls_sound. exact Hcalls.
Qed.

(** X19. What the callback is told: in every run, each call of the
    completion callback carries an outcome other than [NONE], and the
    outcome [SUCCESS] only together with a frame that [isValidResponse]
    accepts (even parity, kind [READ_ACK] or [WRITE_ACK]). *)
Theorem callback_calls_sound (cs : list call) (o : OpenTherm) :
  Forall sound_call (callbackCalls o) ->
  Forall sound_call (callbackCalls (run cs o)).
Proof.
  apply (run_invariant (fun o => Forall sound_call (callbackCalls o))
                       step_calls_sound).
Qed.

Lemma callback_calls_sound_witness :
  Forall sound_call
    (callbackCalls (exchange 0 3221236352 [60000; 860000])).
Proof.
  apply (callback_calls_sound _ (begin true (OpenTherm_new 0))).
  constructor.
Defined.

(** ** Malformed answers *)

Lemma edge_waiting r rs ts k cb calls ws newTs level :
  handleInterrupt newTs level
    (mkOpenTherm RESPONSE_WAITING r rs ts k cb calls ws) =
  mkOpenTherm (if level =? HIGH then RESPONSE_START_BIT else RESPONSE_INVALID)
              r rs newTs k cb calls ws.
Proof.
  unfold handleInterrupt. cbn. destruct (level =? HIGH); reflexivity.
Qed.

Lemma edge_start_bit r rs ts k cb calls ws newTs level :
  handleInterrupt newTs level
    (mkOpenTherm RESPONSE_START_BIT r rs ts k cb calls ws) =
  if (sub32 newTs ts <? 750) && (level =? LOW)
  then mkOpenTherm RESPONSE_RECEIVING r rs newTs 0 cb calls ws
  else mkOpenTherm RESPONSE_INVALID r rs newTs k cb calls ws.
Proof.
  unfold handleInterrupt. cbn.
  destruct ((sub32 newTs ts <? 750) && (level =? LOW)); reflexivity.
Qed.

(** X20. A malformed start is reported as [INVALID]. After an accepted send,
    if the first edge does not read [HIGH], or if it does but the second
    edge comes 750 microseconds or more after it or does not read [LOW], the
    session is [RESPONSE_INVALID]; a [process] within 800,000 microseconds
    of that edge sets the outcome [INVALID], calls the callback once with
    the zero frame, and starts the quiet period. *)
Theorem malformed_start_invalid (o : OpenTherm)
        (request now e1 l1 e2 l2 t : Z) :
  status o = READY ->
  (l1 <> HIGH -> sub32 t e1 <= 800000 ->
   let o' := run [CallSend request now; CallEdge e1 l1; CallProcess t] o in
   status o' = DELAY /\ responseStatus o' = INVALID /\ response o' = 0
   /\ callbackCalls o' = notified o 0 INVALID)
  /\ (l1 = HIGH -> 750 <= sub32 e2 e1 \/ l2 <> LOW ->
      sub32 t e2 <= 800000 ->
      let o' := run [CallSend request now; CallEdge e1 l1; CallEdge e2 l2;
                     CallProcess t] o in
      status o' = DELAY /\ responseStatus o' = INVALID /\ response o' = 0
      /\ callbackCalls o' = notified o 0 INVALID).
Proof.
  intros Hst. split.
  - intros Hl1 Ht o'. unfold o'.
    rewrite !run_cons. cbn [step run fold_left].
    rewrite (sendRequestAync_ready o request now Hst). cbn [snd].
    rewrite edge_waiting.
    destruct (Z.eqb_spec l1 HIGH); [contradiction |].
    rewrite process_frame_invalid by assumption.
    unfold notified. repeat split.
  - intros Hl1 Hbad Ht o'. unfold o'.
    rewrite !run_cons. cbn [step run fold_left].
    rewrite (sendRequestAync_ready o request now Hst). cbn [snd].
    rewrite edge_waiting.
    destruct (Z.eqb_spec l1 HIGH); [| contradiction].
    rewrite edge_start_bit.
    assert (Hcond : (sub32 e2 e1 <? 750) && (l2 =? LOW) = false).
    { destruct Hbad as [Hlate | Hlevel].
      - destruct (Z.ltb_spec (sub32 e2 e1) 750); [lia | reflexivity].
      - destruct (Z.eqb_spec l2 LOW); [contradiction | apply andb_false_r]. }
    rewrite Hcond.
    rewrite process_frame_invalid by assumption.
    unfold notified. repeat split.
Qed.

Lemma malformed_start_invalid_witness :
  callbackCalls
    (run [CallSend 0 0; CallEdge 20000 HIGH; CallEdge 20900 LOW;
          CallProcess 30000] (begin true (OpenTherm_new 0)))
  = [(0, INVALID)].
Proof.
  apply (proj2 (malformed_start_invalid (begin true (OpenTherm_new 0))
                  0 0 20000 HIGH 20900 LOW 30000 eq_refl)).
  - reflexivity.
  - left. vm_compute. discriminate.
  - vm_compute. discriminate.
Defined.

Lemma wait_ready_result (polls : list poll) :
  forall o o', wait_ready polls o = Some o' -> status o' = READY.
Proof.
  induction polls as [| p polls IH]; intros o o' Hwait; cbn [wait_ready] in Hwait.
  - destruct (isReady o) eqn:Hready; [| discriminate].
    injection Hwait as <-. apply status_eqb_eq. exact Hready.
  - destruct (isReady o) eqn:Hready.
    + injection Hwait as <-. apply status_eqb_eq. exact Hready.
    + apply IH in Hwait. exact Hwait.
Qed.

(** X21. What [sendRequest] returns: whenever it returns, either the send
    was rejected (the session was not [READY], the result is 0 and the
    object is unchanged), or the session is [READY] again and the result is
    its [response] field. *)
Theorem sendRequest_result (o o' : OpenTherm) (request now r : Z)
        (polls : list poll) :
  sendRequest request now polls o = Some (r, o') ->
  (status o <> READY /\ r = 0 /\ o' = o)
  \/ (status o = READY /\ status o' = READY /\ r = response o').
Proof.
  intros Hsend. unfold sendRequest in Hsend.
  destruct (status_eqb (status o) READY) eqn:Hst.
  - apply status_eqb_eq in Hst. right.
    rewrite (sendRequestAync_ready o request now Hst) in Hsend.
    cbn [negb] in Hsend.
    match type of Hsend with
    | match wait_ready polls ?s with _ => _ end = _ =>
        destruct (wait_ready polls s) as [o1 |] eqn:Hwait; [| discriminate]
    end.
    injection Hsend as <- <-.
    apply wait_ready_result in Hwait. auto.
  - assert (Hne : status o <> READY)
      by (intros Heq; apply status_eqb_eq in Heq; congruence).
    left. rewrite (sendRequestAync_not_ready o request now Hne) in Hsend.
    cbn [negb] in Hsend. injection Hsend as <- <-. auto.
Qed.

Lemma sendRequest_result_witness :
  (status (mkOpenTherm DELAY 5 SUCCESS 900 32 true [] []) <> READY
   /\ 0 = 0
   /\ mkOpenTherm DELAY 5 SUCCESS 900 32 true [] []
      = mkOpenTherm DELAY 5 SUCCESS 900 32 true [] [])
  \/ (status (mkOpenTherm DELAY 5 SUCCESS 900 32 true [] []) = READY
      /\ status (mkOpenTherm DELAY 5 SUCCESS 900 32 true [] []) = READY
      /\ 0 = response (mkOpenTherm DELAY 5 SUCCESS 900 32 true [] [])).
Proof.
  apply (sendRequest_result
           (mkOpenTherm DELAY 5 SUCCESS 900 32 true [] [])
           (mkOpenTherm DELAY 5 SUCCESS 900 32 true [] []) 7 1000 0 []).
  reflexivity.
Defined.

(** ** The transmitter and the decoder agree *)

Lemma complement_half_bits (bits : list Z) :
  map (fun l => 1 - l) (flat_map (fun b => [1 - b; b]) bits) =
  flat_map (fun b => [b; 1 - b]) bits.
Proof.
  induction bits as [| b bits IH]; [reflexivity |].
  cbn [flat_map app map]. rewrite IH. f_equal. lia.
Qed.

Lemma line_edges_repeat_last (levels : list Z) :
  forall t prev x,
    line_edges t prev (levels ++ [x; x]) = line_edges t prev (levels ++ [x]).
Proof.
  induction levels as [| l levels IH]; intros t prev x.
  - cbn [app line_edges]. rewrite Z.eqb_refl. reflexivity.
  - cbn [app line_edges]. rewrite IH. reflexivity.
Qed.

(** X22. The transmitter and the decoder use the same line code: the levels
    [sendRequestAync] writes for a 32-bit request, complemented (the line
    interface inverts) and presented to [handleInterrupt] as edges 500
    microseconds apart, are decoded to that very request. *)
Theorem loopback_round_trip (o : OpenTherm) (request now t0 : Z) :
  status o = READY -> is_frame request ->
  let o1 := snd (sendRequestAync request now o) in
  let sent := skipn (length (outPinWrites o)) (outPinWrites o1) in
  run (line_edges t0 LOW (map (fun l => 1 - l) sent)) o1 =
  mkOpenTherm RESPONSE_READY request NONE (t0 + 33500) 32
              (processResponseCallback o) (callbackCalls o) (outPinWrites o1).
Proof.
  intros Hst Hf o1 sent.
  assert (Ho1 : o1 =
    mkOpenTherm RESPONSE_WAITING 0 NONE now (responseBitIndex o)
                (processResponseCallback o) (callbackCalls o)
                (outPinWrites o
                   ++ flat_map (fun b => [1 - b; b])
                               (1 :: frame_bits request ++ [1])
                   ++ [HIGH])).
  { unfold o1. rewrite (sendRequestAync_ready o request now Hst). reflexivity. }
  assert (Hsent : sent = flat_map (fun b => [1 - b; b])
                                  (1 :: frame_bits request ++ [1]) ++ [HIGH]).
  { unfold sent. rewrite Ho1. cbn [outPinWrites].
    rewrite skipn_app, skipn_all, Nat.sub_diag. reflexivity. }
  assert (Hedges : line_edges t0 LOW (map (fun l => 1 - l) sent)
                   = slave_response t0 request).
  { rewrite Hsent, map_app, complement_half_bits.
    unfold slave_response, half_bit_levels.
    change (1 :: frame_bits request ++ [1])
      with ((1 :: frame_bits request) ++ [1]).
    rewrite flat_map_app. cbn [flat_map app map].
    change (1 - HIGH) with 0. change (1 - 1) with 0.
    rewrite <- app_assoc. cbn [app].
    set (A := flat_map (fun b => [b; 1 - b]) (frame_bits request)).
    replace (1 :: 0 :: A ++ [1; 0; 0]) with ((1 :: 0 :: A ++ [1]) ++ [0; 0])
      by (cbn [app]; rewrite <- app_assoc; reflexivity).
    replace (1 :: 0 :: A ++ [1; 0]) with ((1 :: 0 :: A ++ [1]) ++ [0])
      by (cbn [app]; rewrite <- app_assoc; reflexivity).
    apply line_edges_repeat_last. }
  rewrite Hedges.
  rewrite run_slave_response; [| rewrite Ho1; reflexivity | assumption].
  rewrite Ho1 at 1 2 3. reflexivity.
Qed.

Lemma loopback_round_trip_witness :
  response
    (run (line_edges 50000 LOW
            (map (fun l => 1 - l)
                 (skipn (length (outPinWrites (begin true (OpenTherm_new 0))))
                        (outPinWrites
                           (snd (sendRequestAync 2149122048 100
                                   (begin true (OpenTherm_new 0))))))))
         (snd (sendRequestAync 2149122048 100 (begin true (OpenTherm_new 0)))))
  = 2149122048.
Proof.
  rewrite (loopback_round_trip (begin true (OpenTherm_new 0)) 2149122048 100
             50000).
  - reflexivity.
  - reflexivity.
  - unfold is_frame. lia.
Defined.
